(** * A shallow embedding of the ESG profile pipeline of rsgrisk (esg/)

    Python values are modelled by [pyval]; Python strings by Rocq [string],
    each [Ascii.ascii] read as a code point below 256 (Latin-1 range).
    Python floats are the kernel's IEEE-754 binary64 floats ([PrimFloat]).
    Raised exceptions are the [Err] branch of [result]. *)

From Stdlib Require Import ZArith Lia List Bool Ascii String.
From Stdlib Require Import Floats Sorting.Sorted Sorting.Permutation.
Import ListNotations.
Set Warnings "-register-all -inexact-float".

Open Scope string_scope.
Open Scope Z_scope.

(** ** Exceptions and the error monad *)

Inductive exc :=
| ESGServiceError (msg : string)
| AttributeError
| TypeError
| ValueError
| OverflowError
| RecursionError
| JSONDecodeError.

Inductive result (A : Type) :=
| Ok (a : A)
| Err (e : exc).
Arguments Ok {A} a.
Arguments Err {A} e.

Definition bind {A B} (m : result A) (k : A -> result B) : result B :=
  match m with
  | Ok a => k a
  | Err e => Err e
  end.

Notation "'let*' x ':=' m 'in' k" := (bind m (fun x => k))
  (at level 200, x name, m at level 100, k at level 200).

(** [[f(x) for x in l]], stopping at the first raised exception. *)
Fixpoint mapM {A B} (f : A -> result B) (l : list A) : result (list B) :=
  match l with
  | [] => Ok []
  | x :: l' => let* y := f x in let* ys := mapM f l' in Ok (y :: ys)
  end.

(** ** Characters and strings (Python [str] on code points below 256) *)

Module Text.

Definition code (c : ascii) : Z := Z.of_N (N_of_ascii c).
Definition char_of_code (n : Z) : ascii := ascii_of_N (Z.to_N n).

(** [str.isspace] / regex [\s] on code points below 256. *)
Definition is_space (c : ascii) : bool :=
  let n := code c in
  ((9 <=? n) && (n <=? 13)) || ((28 <=? n) && (n <=? 32))
  || (n =? 133) || (n =? 160).

(** [str.lower] on code points below 256. *)
Definition lower_char (c : ascii) : ascii :=
  let n := code c in
  if ((65 <=? n) && (n <=? 90)) || ((192 <=? n) && (n <=? 222) && negb (n =? 215))
  then char_of_code (n + 32) else c.

Fixpoint py_lower (s : string) : string :=
  match s with
  | EmptyString => EmptyString
  | String c r => String (lower_char c) (py_lower r)
  end.

Fixpoint lstrip (s : string) : string :=
  match s with
  | EmptyString => EmptyString
  | String c r => if is_space c then lstrip r else s
  end.

Fixpoint rstrip (s : string) : string :=
  match s with
  | EmptyString => EmptyString
  | String c r =>
      match rstrip r with
      | EmptyString => if is_space c then EmptyString else String c EmptyString
      | r' => String c r'
      end
  end.

(** [s.strip()] *)
Definition py_strip (s : string) : string := rstrip (lstrip s).

(** [re.sub(r"\s+", " ", s)]: every maximal run of whitespace becomes one
    space; [in_run] records that the previous character was whitespace. *)
Fixpoint sub_ws (in_run : bool) (s : string) : string :=
  match s with
  | EmptyString => EmptyString
  | String c r =>
      if is_space c
      then if in_run then sub_ws true r else String " " (sub_ws true r)
      else String c (sub_ws false r)
  end.

(** [keyword in text] *)
Definition contains (needle hay : string) : bool :=
  match needle with
  | EmptyString => true
  | _ =>
      (fix go (h : string) : bool :=
         (String.prefix needle h)
         || match h with EmptyString => false | String _ r => go r end) hay
  end.

(** Shape predicates used by the statements about normalisation. *)
Definition starts_with_space (s : string) : bool :=
  match s with String c _ => is_space c | EmptyString => false end.

Fixpoint ends_with_space (s : string) : bool :=
  match s with
  | EmptyString => false
  | String c EmptyString => is_space c
  | String _ r => ends_with_space r
  end.

Fixpoint has_adjacent_spaces (s : string) : bool :=
  match s with
  | String c ((String d _) as r) => (is_space c && is_space d) || has_adjacent_spaces r
  | _ => false
  end.

End Text.

Import Text.

(** ** esg/utils.py: [normalize_company_name] *)

Definition normalize_company_name (name : string) : string :=
  sub_ws false (py_strip name).

(** ** SHA-1 (hashlib.sha1) over bytes, with [hexdigest] *)

Module Sha1.

Definition mask32 : Z := 2 ^ 32 - 1.
Definition w32 (x : Z) : Z := Z.land x mask32.
Definition rotl (x : Z) (n : Z) : Z :=
  w32 (Z.lor (Z.shiftl x n) (Z.shiftr x (32 - n))).

Definition be_bytes (n : nat) (x : Z) : list Z :=
  map (fun i => Z.land (Z.shiftr x (8 * Z.of_nat (n - 1 - i))) 255) (seq 0 n).

Definition pad (msg : list Z) : list Z :=
  let len := Z.of_nat (List.length msg) in
  (msg ++ [128] ++ repeat 0 (Z.to_nat ((55 - len) mod 64)) ++ be_bytes 8 (8 * len))%list.

Definition word_of (b : list Z) : Z :=
  fold_left (fun acc x => acc * 256 + x) b 0.

Fixpoint words (fuel : nat) (b : list Z) : list Z :=
  match fuel with
  | O => []
  | S f => match b with [] => [] | _ => word_of (firstn 4 b) :: words f (skipn 4 b) end
  end.

Fixpoint chunks (fuel : nat) (b : list Z) : list (list Z) :=
  match fuel with
  | O => []
  | S f => match b with [] => [] | _ => firstn 64 b :: chunks f (skipn 64 b) end
  end.

(** The message schedule, most recent word first. *)
Fixpoint extend (n : nat) (rw : list Z) : list Z :=
  match n with
  | O => rw
  | S k =>
      let w := rotl (Z.lxor (Z.lxor (nth 2 rw 0) (nth 7 rw 0))
                            (Z.lxor (nth 13 rw 0) (nth 15 rw 0))) 1 in
      extend k (w :: rw)
  end.

Definition schedule (chunk : list Z) : list Z :=
  rev (extend 64 (rev (words 16 chunk))).

Record st := mkst { ha : Z; hb : Z; hc : Z; hd : Z; he : Z }.

Definition round (i : nat) (wi : Z) (s : st) : st :=
  let '(mkst a b c d e) := s in
  let '(f, k) :=
    if (i <? 20)%nat then (Z.lor (Z.land b c) (Z.land (Z.lxor b mask32) d), 1518500249)
    else if (i <? 40)%nat then (Z.lxor (Z.lxor b c) d, 1859775393)
    else if (i <? 60)%nat then (Z.lor (Z.lor (Z.land b c) (Z.land b d)) (Z.land c d), 2400959708)
    else (Z.lxor (Z.lxor b c) d, 3395469782) in
  let temp := w32 (rotl a 5 + f + e + k + wi) in
  mkst temp a (rotl b 30) c d.

Fixpoint rounds (i : nat) (ws : list Z) (s : st) : st :=
  match ws with
  | [] => s
  | w :: ws' => rounds (S i) ws' (round i w s)
  end.

Definition compress (h : st) (chunk : list Z) : st :=
  let '(mkst a b c d e) := rounds 0 (schedule chunk) h in
  mkst (w32 (ha h + a)) (w32 (hb h + b)) (w32 (hc h + c)) (w32 (hd h + d)) (w32 (he h + e)).

Definition h_init : st := mkst 1732584193 4023233417 2562383102 271733878 3285377520.

Definition sha1 (msg : list Z) : st :=
  let p := pad msg in fold_left compress (chunks (List.length p) p) h_init.

Definition hexdigit (n : Z) : ascii :=
  if n <? 10 then char_of_code (48 + n) else char_of_code (87 + n).

Definition hex8 (w : Z) : string :=
  string_of_list_ascii
    (map (fun sh => hexdigit (Z.land (Z.shiftr w sh) 15)) [28; 24; 20; 16; 12; 8; 4; 0]).

Definition hexdigest (h : st) : string :=
  (hex8 (ha h) ++ hex8 (hb h) ++ hex8 (hc h) ++ hex8 (hd h) ++ hex8 (he h))%string.

End Sha1.

(** [str.encode('utf-8')] for code points below 256. *)
Fixpoint utf8_encode (s : string) : list Z :=
  match s with
  | EmptyString => []
  | String c r =>
      let n := code c in
      ((if n <? 128 then [n] else [192 + n / 64; 128 + n mod 64]) ++ utf8_encode r)%list
  end.

(** ** esg/utils.py: [make_cache_key] *)

Definition make_cache_key (company_name : string) : string :=
  let normalized := py_lower (normalize_company_name company_name) in
  let digest := Sha1.hexdigest (Sha1.sha1 (utf8_encode normalized)) in
  ("esg:company:" ++ digest)%string.

(** ** Python values *)

Inductive pyval :=
| PNone
| PBool (b : bool)
| PInt (z : Z)
| PFloat (f : float)
| PStr (s : string)
| PList (l : list pyval)
| PDict (kvs : list (string * pyval)).

Module Py.

(** [bool(v)] *)
Definition truthy (v : pyval) : bool :=
  match v with
  | PNone => false
  | PBool b => b
  | PInt z => negb (z =? 0)
  | PFloat f => negb (PrimFloat.eqb f (0)%float)
  | PStr s => match s with EmptyString => false | _ => true end
  | PList l => match l with [] => false | _ => true end
  | PDict kvs => match kvs with [] => false | _ => true end
  end.

(** [a or b] *)
Definition py_or (a b : pyval) : pyval := if truthy a then a else b.

(** Dicts are association lists with distinct keys, in insertion order. *)
Fixpoint dict_get (kvs : list (string * pyval)) (k : string) : option pyval :=
  match kvs with
  | [] => None
  | (k', v) :: r => if String.eqb k k' then Some v else dict_get r k
  end.

(** [d[k] = v]: an existing key keeps its position. *)
Fixpoint dict_set (kvs : list (string * pyval)) (k : string) (v : pyval)
  : list (string * pyval) :=
  match kvs with
  | [] => [(k, v)]
  | (k', v') :: r => if String.eqb k k' then (k', v) :: r else (k', v') :: dict_set r k v
  end.

(** [d.get(k, default)]: only dicts have [.get]. *)
Definition get (d : pyval) (k : string) (default : pyval) : result pyval :=
  match d with
  | PDict kvs => Ok (match dict_get kvs k with Some v => v | None => default end)
  | _ => Err AttributeError
  end.

(** [for x in v] *)
Definition iter (v : pyval) : result (list pyval) :=
  match v with
  | PList l => Ok l
  | PDict kvs => Ok (map (fun kv => PStr (fst kv)) kvs)
  | PStr s => Ok (map (fun c => PStr (String c EmptyString)) (list_ascii_of_string s))
  | _ => Err TypeError
  end.

End Py.

(** ** Python floats *)

Module Flt.

Definition zero : float := 0%float.
Definition hundred : float := 100%float.

(** [n / d] rounded to the nearest integer, ties to even ([n >= 0], [d > 0]). *)
Definition rhe_div (n d : Z) : Z :=
  let q := n / d in
  let r := n mod d in
  if 2 * r <? d then q
  else if d <? 2 * r then q + 1
  else if Z.even q then q else q + 1.

(** The binary64 significand and exponent nearest to [p / q] ([p, q > 0]);
    [None] when the value rounds beyond the largest finite float. *)
Definition binary_round (p q : Z) : option (Z * Z) :=
  let scaled e := if 0 <=? e then (p, q * 2 ^ e) else (p * 2 ^ (- e), q) in
  let e0 := Z.log2 p - Z.log2 q - 52 in
  let e1 := let '(n, d) := scaled e0 in if n / d <? 2 ^ 52 then e0 - 1 else e0 in
  let e2 := Z.max e1 (-1074) in
  let '(n, d) := scaled e2 in
  let m := rhe_div n d in
  let '(m', e3) := if m =? 2 ^ 53 then (2 ^ 52, e2 + 1) else (m, e2) in
  if 971 <? e3 then None else Some (m', e3).

Definition signed_zero (neg : bool) : float := if neg then (-0)%float else 0%float.
Definition signed_inf (neg : bool) : float := if neg then neg_infinity else infinity.

(** The float nearest to [+-p/q] ([p >= 0], [q > 0]), [+-inf] on overflow. *)
Definition of_ratio (neg : bool) (p q : Z) : float :=
  if p <=? 0 then signed_zero neg else
  match binary_round p q with
  | None => signed_inf neg
  | Some (m, e) =>
      if m <=? 0 then signed_zero neg else SF2Prim (S754_finite neg (Z.to_pos m) e)
  end.

(** [float(z)] for an [int]: correctly rounded, [OverflowError] when too large. *)
Definition of_int (z : Z) : result float :=
  if z =? 0 then Ok zero else
  match binary_round (Z.abs z) 1 with
  | None => Err OverflowError
  | Some (m, e) => Ok (SF2Prim (S754_finite (z <? 0) (Z.to_pos m) e))
  end.

(** The float nearest to [+-d * 10^e]. *)
Definition of_decimal (neg : bool) (d e : Z) : float :=
  if d <=? 0 then signed_zero neg
  else if 400 <? e then signed_inf neg
  else if Z.log2 d + 1 + 3 * e <=? -1076 then signed_zero neg
  else if 0 <=? e then of_ratio neg (d * 10 ^ e) 1
  else of_ratio neg d (10 ^ (- e)).

(** [round(x, 2)]: the exact value of [x] rounded to a multiple of 1/100
    (ties to even), then converted back to the nearest float. *)
Definition round2 (x : float) : float :=
  match Prim2SF x with
  | S754_finite s m e =>
      let k := if 0 <=? e then Z.pos m * 2 ^ e * 100
               else rhe_div (Z.pos m * 100) (2 ^ (- e)) in
      of_ratio s k 100
  | _ => x
  end.

(** [min(a, b)] and [max(a, b)] as the builtins compute them. *)
Definition py_min (a b : float) : float := if PrimFloat.ltb b a then b else a.
Definition py_max (a b : float) : float := if PrimFloat.ltb a b then b else a.

(** Decimal digits of a string prefix: value, count, rest. *)
Fixpoint read_digits (s : string) (acc : Z) (n : nat) : Z * nat * string :=
  match s with
  | String c r =>
      let k := code c in
      if (48 <=? k) && (k <=? 57) then read_digits r (acc * 10 + (k - 48)) (S n)
      else (acc, n, s)
  | EmptyString => (acc, n, s)
  end.

Definition is_digit (c : ascii) : bool := (48 <=? code c) && (code c <=? 57).

(** Underscores are allowed only between two digits; they are then dropped. *)
Fixpoint drop_underscores (prev_digit : bool) (s : string) : option string :=
  match s with
  | EmptyString => Some EmptyString
  | String "_" r =>
      match r with
      | String c _ => if prev_digit && is_digit c then drop_underscores false r else None
      | EmptyString => None
      end
  | String c r =>
      match drop_underscores (is_digit c) r with
      | Some r' => Some (String c r')
      | None => None
      end
  end.

(** [digits ['.' digits] [('e'|'E') [sign] digits]]: mantissa and exponent. *)
Definition parse_decimal (s : string) : option (Z * Z) :=
  let '(ip, ni, r1) := read_digits s 0 0 in
  let '(dv, nf, r2) :=
    match r1 with
    | String "." r => read_digits r ip 0
    | _ => (ip, O, r1)
    end in
  if (ni + nf =? 0)%nat then None else
  let fe := Z.of_nat nf in
  match r2 with
  | EmptyString => Some (dv, - fe)
  | String ec r3 =>
      if (ec =? "e")%char || (ec =? "E")%char then
        let '(eneg, r4) :=
          match r3 with
          | String "-" r => (true, r)
          | String "+" r => (false, r)
          | _ => (false, r3)
          end in
        match read_digits r4 0 0 with
        | (ev, S _, EmptyString) => Some (dv, (if eneg then - ev else ev) - fe)
        | _ => None
        end
      else None
  end.

(** [float(s)] for a [str]; [None] is [ValueError]. *)
Definition of_str (s0 : string) : option float :=
  match drop_underscores false (py_strip s0) with
  | None => None
  | Some s =>
      let '(neg, body) :=
        match s with
        | String "-" r => (true, r)
        | String "+" r => (false, r)
        | _ => (false, s)
        end in
      let lb := py_lower body in
      if String.eqb lb "inf" || String.eqb lb "infinity" then Some (signed_inf neg)
      else if String.eqb lb "nan" then Some nan
      else match parse_decimal body with
           | Some (d, e) => Some (of_decimal neg d e)
           | None => None
           end
  end.

End Flt.

(** [float(value)] *)
Definition py_float (v : pyval) : result float :=
  match v with
  | PNone => Err TypeError
  | PBool b => Ok (if b then 1%float else 0%float)
  | PInt z => Flt.of_int z
  | PFloat f => Ok f
  | PStr s => match Flt.of_str s with Some f => Ok f | None => Err ValueError end
  | PList _ | PDict _ => Err TypeError
  end.

(** ** json.loads *)

Module Json.

Definition is_ws (c : ascii) : bool :=
  (c =? " ")%char || (c =? "009")%char || (c =? "010")%char || (c =? "013")%char.

Fixpoint skip_ws (s : string) : string :=
  match s with
  | String c r => if is_ws c then skip_ws r else s
  | EmptyString => EmptyString
  end.

Definition hex_val (c : ascii) : option Z :=
  let k := code c in
  if (48 <=? k) && (k <=? 57) then Some (k - 48)
  else if (97 <=? k) && (k <=? 102) then Some (k - 87)
  else if (65 <=? k) && (k <=? 70) then Some (k - 55)
  else None.

(** The body of a string literal after its opening quote; control
    characters are refused (strict mode).  Escapes of code points above
    U+00FF lie outside the modelled character range and are refused. *)
Fixpoint scan_string (s : string) : option (string * string) :=
  match s with
  | EmptyString => None
  | String "034" r => Some (EmptyString, r)
  | String "\" r =>
      match r with
      | String e r' =>
          let cont (c : ascii) :=
            match scan_string r' with
            | Some (body, rest) => Some (String c body, rest)
            | None => None
            end in
          if (e =? "034")%char then cont "034"%char
          else if (e =? "\")%char then cont "\"%char
          else if (e =? "/")%char then cont "/"%char
          else if (e =? "b")%char then cont "008"%char
          else if (e =? "f")%char then cont "012"%char
          else if (e =? "n")%char then cont "010"%char
          else if (e =? "r")%char then cont "013"%char
          else if (e =? "t")%char then cont "009"%char
          else if (e =? "u")%char then
            match r' with
            | String h1 (String h2 (String h3 (String h4 r''))) =>
                match hex_val h1, hex_val h2, hex_val h3, hex_val h4 with
                | Some a, Some b, Some c, Some d =>
                    let cp := ((a * 16 + b) * 16 + c) * 16 + d in
                    if cp <=? 255 then
                      match scan_string r'' with
                      | Some (body, rest) => Some (String (char_of_code cp) body, rest)
                      | None => None
                      end
                    else None
                | _, _, _, _ => None
                end
            | _ => None
            end
          else None
      | EmptyString => None
      end
  | String c r =>
      if code c <? 32 then None
      else match scan_string r with
           | Some (body, rest) => Some (String c body, rest)
           | None => None
           end
  end.

(** CPython's default [sys.get_int_max_str_digits()]: converting a longer
    digit string to an [int] raises [ValueError]. *)
Definition INT_MAX_STR_DIGITS : Z := 4300.

(** The number syntax of the decoder: optional minus, then 0 or a digit run
    not starting with 0, optional fraction, optional exponent.  The value is
    an [int], or a [float] when a fraction or an exponent is present; an
    [int] of more than [INT_MAX_STR_DIGITS] digits raises [ValueError]. *)
Definition scan_number (s : string) : option (result pyval * string) :=
  let '(neg, s1) := match s with String "-" r => (true, r) | _ => (false, s) end in
  let int_part :=
    match s1 with
    | String "0" r => Some (0, 1%nat, r)
    | String c _ => if Flt.is_digit c then Some (Flt.read_digits s1 0 0) else None
    | EmptyString => None
    end in
  match int_part with
  | None => None
  | Some (ip, ni, r1) =>
      let '(dv, nf, r2) :=
        match r1 with
        | String "." (String c _ as r) =>
            if Flt.is_digit c then Flt.read_digits r ip 0 else (ip, O, r1)
        | _ => (ip, O, r1)
        end in
      let '(ex, has_exp, r3) :=
        match r2 with
        | String ec r =>
            if (ec =? "e")%char || (ec =? "E")%char then
              let '(eneg, r') :=
                match r with
                | String "-" q => (true, q)
                | String "+" q => (false, q)
                | _ => (false, r)
                end in
              match Flt.read_digits r' 0 0 with
              | (ev, S _, q) => ((if eneg then - ev else ev), true, q)
              | _ => (0, false, r2)
              end
            else (0, false, r2)
        | EmptyString => (0, false, r2)
        end in
      if negb has_exp && (nf =? O)%nat then
        if INT_MAX_STR_DIGITS <? Z.of_nat ni then Some (Err ValueError, r3)
        else Some (Ok (PInt (if neg then - ip else ip)), r3)
      else Some (Ok (PFloat (Flt.of_decimal neg dv (ex - Z.of_nat nf))), r3)
  end.

(** [d]: how many more arrays and objects the decoder can open before the
    interpreter's recursion guard raises [RecursionError] (the guard runs
    on every ['['] and ['{'] and its budget depends on the interpreter and
    on the stack depth of the call); [n] is fuel.  Errors are raised left
    to right, as the scanner meets them. *)
Fixpoint value (d n : nat) (s : string) {struct n} : result (pyval * string) :=
  match n with
  | O => Err JSONDecodeError
  | S n' =>
      match s with
      | String "{" r =>
          match d with
          | O => Err RecursionError
          | S d' => members d' n' [] (skip_ws r) true
          end
      | String "[" r =>
          match d with
          | O => Err RecursionError
          | S d' =>
              match skip_ws r with
              | String "]" r' => Ok (PList [], r')
              | r' => elements d' n' [] r'
              end
          end
      | String "034" r =>
          match scan_string r with Some (b, rest) => Ok (PStr b, rest) | None => Err JSONDecodeError end
      | _ =>
          if String.prefix "null" s then Ok (PNone, substring 4 (String.length s) s)
          else if String.prefix "true" s then Ok (PBool true, substring 4 (String.length s) s)
          else if String.prefix "false" s then Ok (PBool false, substring 5 (String.length s) s)
          else match scan_number s with
               | Some (Ok v, rest) => Ok (v, rest)
               | Some (Err e, _) => Err e
               | None =>
                   if String.prefix "NaN" s then Ok (PFloat nan, substring 3 (String.length s) s)
                   else if String.prefix "Infinity" s
                   then Ok (PFloat infinity, substring 8 (String.length s) s)
                   else if String.prefix "-Infinity" s
                   then Ok (PFloat neg_infinity, substring 9 (String.length s) s)
                   else Err JSONDecodeError
               end
      end
  end
with elements (d n : nat) (acc : list pyval) (s : string) {struct n} : result (pyval * string) :=
  match n with
  | O => Err JSONDecodeError
  | S n' =>
      match value d n' s with
      | Err e => Err e
      | Ok (v, r) =>
          match skip_ws r with
          | String "]" r' => Ok (PList (rev (v :: acc)), r')
          | String "," r' => elements d n' (v :: acc) (skip_ws r')
          | _ => Err JSONDecodeError
          end
      end
  end
with members (d n : nat) (acc : list (string * pyval)) (s : string) (first : bool) {struct n}
  : result (pyval * string) :=
  match n with
  | O => Err JSONDecodeError
  | S n' =>
      match s with
      | String "}" r => if first then Ok (PDict acc, r) else Err JSONDecodeError
      | String "034" r =>
          match scan_string r with
          | None => Err JSONDecodeError
          | Some (k, r1) =>
              match skip_ws r1 with
              | String ":" r2 =>
                  match value d n' (skip_ws r2) with
                  | Err e => Err e
                  | Ok (v, r3) =>
                      let acc' := Py.dict_set acc k v in
                      match skip_ws r3 with
                      | String "}" r4 => Ok (PDict acc', r4)
                      | String "," r4 => members d n' acc' (skip_ws r4) false
                      | _ => Err JSONDecodeError
                      end
                  end
              | _ => Err JSONDecodeError
              end
          end
      | _ => Err JSONDecodeError
      end
  end.

(** [json.loads(s)], with a recursion budget of [depth]: a syntax error
    raises [JSONDecodeError]. *)
Definition loads (depth : nat) (s : string) : result pyval :=
  match value depth (2 * String.length s + 2)%nat (skip_ws s) with
  | Ok (v, rest) => match skip_ws rest with EmptyString => Ok v | _ => Err JSONDecodeError end
  | Err e => Err e
  end.

End Json.

(** ** esg/clients.py: [_parse_articles_payload] *)

Fixpoint skip_space (s : string) : string :=
  match s with
  | String c r => if is_space c then skip_space r else s
  | EmptyString => EmptyString
  end.

(** After the group's closing brace: [\s*```]; returns the rest. *)
Definition close_fence (s : string) : option string :=
  match skip_space s with
  | String "`" (String "`" (String "`" r)) => Some r
  | _ => None
  end.

(** The lazy [.*?\}]: the shortest body whose closing brace is followed by
    the closing fence.  [acc] is the group read so far. *)
Fixpoint lazy_group (s : string) (acc : string) : option (string * string) :=
  match s with
  | EmptyString => None
  | String c r =>
      let acc' := acc ++ String c EmptyString in
      if (c =? "}")%char then
        match close_fence r with
        | Some rest => Some (acc', rest)
        | None => lazy_group r acc'
        end
      else lazy_group r acc'
  end.

(** A match of [```(?:json)?\s*(\{.*?\})\s*```] at the start of [s]. *)
Definition fence_at (s : string) : option (string * string) :=
  match s with
  | String "`" (String "`" (String "`" r)) =>
      let r1 := if String.prefix "json" r then substring 4 (String.length r) r else r in
      match skip_space r1 with
      | String "{" r2 => lazy_group r2 "{"
      | _ => None
      end
  | _ => None
  end.

(** [re.findall(pattern, s, flags=re.DOTALL)]: group 1 of each
    non-overlapping match, left to right. *)
Fixpoint findall_fenced (fuel : nat) (s : string) : list string :=
  match fuel with
  | O => []
  | S f =>
      match s with
      | EmptyString => []
      | String _ r =>
          match fence_at s with
          | Some (g, rest) => g :: findall_fenced f rest
          | None => findall_fenced f r
          end
      end
  end.

Fixpoint find_char (c : ascii) (s : string) (i : Z) : Z :=
  match s with
  | EmptyString => -1
  | String d r => if (d =? c)%char then i else find_char c r (i + 1)
  end.

Fixpoint rfind_char (c : ascii) (s : string) (i : Z) : Z :=
  match s with
  | EmptyString => -1
  | String d r =>
      let later := rfind_char c r (i + 1) in
      if later =? -1 then (if (d =? c)%char then i else -1) else later
  end.

(** The fenced blocks in turn: a block raising [JSONDecodeError] is
    skipped, any other exception propagates. *)
Fixpoint first_parse (depth : nat) (blocks : list string) : result (option pyval) :=
  match blocks with
  | [] => Ok None
  | b :: bs =>
      match Json.loads depth b with
      | Ok v => Ok (Some v)
      | Err JSONDecodeError => first_parse depth bs
      | Err e => Err e
      end
  end.

(** [depth]: the recursion budget of its [json.loads] calls. *)
Definition parse_articles_payload (depth : nat) (raw_text : string) : result pyval :=
  let text := py_strip raw_text in
  match Json.loads depth text with
  | Ok v => Ok v
  | Err JSONDecodeError =>
      let* found := first_parse depth (findall_fenced (S (String.length text)) text) in
      match found with
      | Some v => Ok v
      | None =>
          let start := find_char "{" text 0 in
          let end_ := rfind_char "}" text 0 in
          if negb (start =? -1) && negb (end_ =? -1) && (start <? end_) then
            Json.loads depth (substring (Z.to_nat start) (Z.to_nat (end_ + 1 - start)) text)
          else Err JSONDecodeError
      end
  | Err e => Err e
  end.

(** ** Datetimes *)

(** A naive datetime carries its wall-clock time, an aware one its UTC
    instant and offset; both in microseconds since 1970-01-01. *)
Inductive datetime :=
| Naive (wall : Z)
| Aware (utc : Z) (offset : Z).

(** [datetime.min] (0001-01-01 00:00, naive). *)
Definition datetime_min : datetime := Naive (-62135596800000000).

Definition is_aware (d : datetime) : bool :=
  match d with Aware _ _ => true | Naive _ => false end.

(** The value that [<] compares: the wall time of naive datetimes, the UTC
    instant of aware ones. *)
Definition dt_key (d : datetime) : Z :=
  match d with Naive w => w | Aware u _ => u end.

(** [ensure_aware]: naive values are read as UTC. *)
Definition ensure_aware (d : datetime) : datetime :=
  match d with Naive w => Aware w 0 | _ => d end.

(** ** esg/keywords.py *)

Definition ENVIRONMENTAL_KEYWORDS : list string :=
  ["emission"; "emissions"; "carbon"; "pollution"; "climate"; "waste"; "deforestation";
   "environment"; "biodiversity"; "renewable"; "sustainability"; "water scarcity";
   "pipeline leak"; "oil spill"; "toxic"; "greenhouse"; "air quality"].

Definition SOCIAL_KEYWORDS : list string :=
  ["labour"; "labor"; "worker"; "strike"; "union"; "discrimination"; "harassment";
   "human rights"; "privacy"; "safety"; "fatality"; "community"; "protest"; "diversity";
   "inclusive"].

Definition GOVERNANCE_KEYWORDS : list string :=
  ["governance"; "board"; "fraud"; "bribery"; "audit"; "corruption"; "whistleblower";
   "accounting"; "transparency"; "sebi"; "sec"; "compliance"; "tax evasion";
   "money laundering"; "insider trading"].

Definition ESG_KEYWORDS : list (string * list string) :=
  [("environment", ENVIRONMENTAL_KEYWORDS); ("social", SOCIAL_KEYWORDS);
   ("governance", GOVERNANCE_KEYWORDS)].

(** ** Articles as [fetch_articles] builds them *)

Record article := mkArticle {
  a_title : pyval;
  a_description : pyval;
  a_url : pyval;
  a_source : pyval;
  a_published_at : option datetime;
  a_source_type : string
}.

(** The oracle's answer to one request: a transport failure, a response
    without [output_text], or the response text. *)
Inductive reply :=
| ReplyTransportError
| ReplyNoText
| ReplyText (text : string).

(** ** esg/utils.py: [deduplicate_articles] *)

Definition hashable (v : pyval) : bool :=
  match v with PList _ | PDict _ => false | _ => true end.

(** [f == float(z)], exactly. *)
Definition float_eq_int (f : float) (z : Z) : bool :=
  match Prim2SF f with
  | S754_zero _ => z =? 0
  | S754_finite s m e =>
      let v := if s then Z.neg m else Z.pos m in
      if 0 <=? e then z =? v * 2 ^ e else z * 2 ^ (- e) =? v
  | _ => false
  end.

(** Key equality in a [set]: [==] across [bool], [int] and [float]; the
    [NaN] of [json.loads] is one shared object, so it is found by identity. *)
Definition set_key_eq (a b : pyval) : bool :=
  let num v := match v with
               | PBool x => Some (inl (if x then 1 else 0))
               | PInt z => Some (inl z)
               | PFloat f => Some (inr f)
               | _ => None
               end in
  match a, b with
  | PNone, PNone => true
  | PStr x, PStr y => String.eqb x y
  | _, _ =>
      match num a, num b with
      | Some (inl x), Some (inl y) => x =? y
      | Some (inr x), Some (inr y) => PrimFloat.eqb x y || (is_nan x && is_nan y)
      | Some (inl x), Some (inr y) | Some (inr y), Some (inl x) => float_eq_int y x
      | _, _ => false
      end
  end.

(** [next((kc for kc in (url, title) if kc), None)] *)
Definition unique_key (e : article) : pyval :=
  if Py.truthy (a_url e) then a_url e
  else if Py.truthy (a_title e) then a_title e
  else PNone.

Fixpoint dedup_loop (seen : list pyval) (entries : list article) : result (list article) :=
  match entries with
  | [] => Ok []
  | e :: rest =>
      let k := unique_key e in
      if negb (Py.truthy k) then dedup_loop seen rest
      else if negb (hashable k) then Err TypeError
      else if existsb (set_key_eq k) seen then dedup_loop seen rest
      else let* kept := dedup_loop (k :: seen) rest in Ok (e :: kept)
  end.

Definition deduplicate_articles (entries : list article) : result (list article) :=
  dedup_loop [] entries.

(** ** esg/utils.py: [take_latest] *)

Section Sort.
Context {A : Type} (lt : A -> A -> bool).

(** [x] goes after every [y] that is not smaller. *)
Fixpoint insert_desc (x : A) (l : list A) : list A :=
  match l with
  | [] => [x]
  | y :: l' => if lt y x then x :: l else y :: insert_desc x l'
  end.

(** [sorted(l, key=..., reverse=True)]: descending and stable. *)
Definition sort_desc (l : list A) : list A :=
  fold_left (fun acc x => insert_desc x acc) l [].

End Sort.

(** [l[:n]] *)
Definition py_slice_upto {A} (l : list A) (n : Z) : list A :=
  if 0 <=? n then firstn (Z.to_nat n) l
  else firstn (Z.to_nat (Z.of_nat (List.length l) + n)) l.

Definition published_key (e : article) : datetime :=
  match a_published_at e with Some d => d | None => datetime_min end.

(** Sorting a list that holds both naive and aware keys compares one of
    each, which raises [TypeError]. *)
Definition mixed_awareness (l : list article) : bool :=
  existsb (fun e => is_aware (published_key e)) l
  && existsb (fun e => negb (is_aware (published_key e))) l.

Definition take_latest (entries : list article) (limit : Z) : result (list article) :=
  if mixed_awareness entries then Err TypeError
  else
    let sorted_entries :=
      sort_desc (fun a b => dt_key (published_key a) <? dt_key (published_key b)) entries in
    Ok (py_slice_upto sorted_entries limit).

(** ** Library behaviour the code relies on *)

Section Library.

(** [dateutil.parser.parse] on a string ([None]: it raised), the
    [isoformat()] of an aware datetime, and [strftime('%b %d, %Y')]. *)
Variable dateutil_parse : string -> option datetime.
Variable iso_str : datetime -> string.
Variable display_str : datetime -> string.
(** The recursion budgets of the [json.loads] calls in [fetch_articles]
    (through [_parse_articles_payload]) and in [_analyse_with_openai]. *)
Variable fetch_depth : nat.
Variable analysis_depth : nat.

(** esg/utils.py: [safe_parse_datetime] *)
Definition safe_parse_datetime (v : pyval) : option datetime :=
  if negb (Py.truthy v) then None
  else match v with
       | PStr s => option_map ensure_aware (dateutil_parse s)
       | _ => None
       end.

(** esg/utils.py: [isoformat] *)
Definition isoformat (d : datetime) : string := iso_str (ensure_aware d).

(** ** esg/clients.py: [fetch_articles] *)

Definition mk_article (now : Z) (item : pyval) : result article :=
  let* pv := Py.get item "published_at" PNone in
  let published_at :=
    match safe_parse_datetime pv with Some d => d | None => Naive now end in
  let* title := Py.get item "title" (PStr "") in
  let* description := Py.get item "description" (PStr "") in
  let* url := Py.get item "url" PNone in
  let* source := Py.get item "source" PNone in
  Ok (mkArticle title description url source (Some published_at) "openai_web_search").

(** [configured]: [OpenAI and settings.OPENAI_API_KEY]; [now]: the value
    of [datetime.utcnow()]; [r]: the web-search request's outcome. *)
Definition fetch_articles (configured : bool) (r : reply) (now : Z)
    (company_name : string) (limit : Z) : result (list article) :=
  if negb configured then Ok [] else
  match r with
  | ReplyTransportError => Ok []
  | ReplyNoText => Ok []
  | ReplyText response_text =>
      match parse_articles_payload fetch_depth response_text with
      | Err JSONDecodeError => Ok []
      | Err e => Err e
      | Ok payload =>
          let* av := Py.get payload "articles" (PList []) in
          let* raw := Py.iter av in
          let* articles := mapM (mk_article now) raw in
          let* unique_articles := deduplicate_articles articles in
          take_latest unique_articles limit
      end
  end.

(** ** esg/services.py: the scoring engine *)

Record scores := mkScores {
  sc_environment : pyval;
  sc_social : pyval;
  sc_governance : pyval;
  sc_overall : float
}.

Record item := mkItem {
  it_title : pyval;
  it_description : pyval;
  it_date : pyval;
  it_display_date : pyval;
  it_source : pyval;
  it_url : pyval;
  it_scores : scores
}.

Record analysis := mkAnalysis {
  an_items : list item;
  an_overall_score : pyval
}.

Definition WEIGHTS : list (string * Z) :=
  [("environment", 4); ("social", 3); ("governance", 3)].

Definition weight (k : string) : Z :=
  match find (fun kv => String.eqb (fst kv) k) WEIGHTS with Some (_, w) => w | None => 0 end.

(** An [int] literal of the code used as a float operand. *)
Definition zf (z : Z) : float := Flt.of_ratio (z <? 0) (Z.abs z) 1.

(** [_coerce_score] *)
Definition coerce_score (value : pyval) (default : float) : result float :=
  match py_float value with
  | Ok number => Ok (Flt.py_max Flt.zero (Flt.py_min Flt.hundred number))
  | Err TypeError | Err ValueError => Ok default
  | Err e => Err e
  end.

Definition dict_lookup (d : list (string * pyval)) (k : string) : pyval :=
  match Py.dict_get d k with Some v => v | None => PNone end.

(** [_calculate_weighted_score] *)
Definition calculate_weighted_score (sc : list (string * pyval)) : result float :=
  let total_weight := fold_left Z.add (map snd WEIGHTS) 0 in
  let* e := coerce_score (dict_lookup sc "environment") Flt.zero in
  let* s := coerce_score (dict_lookup sc "social") Flt.zero in
  let* g := coerce_score (dict_lookup sc "governance") Flt.zero in
  let weighted_sum :=
    (zf (weight "environment") * e + zf (weight "social") * s
     + zf (weight "governance") * g)%float in
  Ok (if total_weight =? 0 then Flt.zero
      else Flt.round2 (weighted_sum / zf total_weight)%float).

(** [_format_display_date] (the value is never a [datetime] here). *)
Definition format_display_date (value : pyval) : pyval :=
  let dt := if Py.truthy value then safe_parse_datetime value else None in
  match dt with
  | None => Py.py_or value (PStr "N/A")
  | Some d => PStr (display_str d)
  end.

(** [_normalize_item_structure] *)
Definition normalize_item_structure (it : pyval) : result item :=
  let* sv := Py.get it "scores" PNone in
  let sd := Py.py_or sv (PDict []) in
  let* ev := Py.get sd "environment" PNone in
  let* e := coerce_score ev Flt.zero in
  let* socv := Py.get sd "social" PNone in
  let* s := coerce_score socv Flt.zero in
  let* gv := Py.get sd "governance" PNone in
  let* g := coerce_score gv Flt.zero in
  let normalized_scores :=
    [("environment", PFloat e); ("social", PFloat s); ("governance", PFloat g)] in
  let* ov := Py.get sd "overall" PNone in
  let* default := calculate_weighted_score normalized_scores in
  let* o := coerce_score ov default in
  let* d1 := Py.get it "date" PNone in
  let* d2 := Py.get it "published_at" PNone in
  let date_value := Py.py_or d1 d2 in
  let* title := Py.get it "title" (PStr "") in
  let* description := Py.get it "description" (PStr "") in
  let* source := Py.get it "source" PNone in
  let* url := Py.get it "url" PNone in
  Ok (mkItem title description date_value (format_display_date date_value) source url
        (mkScores (PFloat e) (PFloat s) (PFloat g) o)).

(** [_sort_items_by_score] *)
Definition sort_items_by_score (items : list item) : list item :=
  sort_desc (fun a b => PrimFloat.ltb (sc_overall (it_scores a)) (sc_overall (it_scores b)))
    items.

(** [_compute_overall_score]: every [overall] is a float; [sum] adds left
    to right. *)
Definition compute_overall_score (items : list item) : float :=
  match items with
  | [] => Flt.zero
  | _ =>
      let total := fold_left (fun acc i => (acc + sc_overall (it_scores i))%float) items Flt.zero in
      Flt.round2 (total / zf (Z.of_nat (List.length items)))%float
  end.

(** [_execute_openai_prompt] *)
Definition execute_openai_prompt (available : bool) (r : reply) : result string :=
  if negb available then Err (ESGServiceError "OpenAI is not configured.") else
  match r with
  | ReplyTransportError => Err (ESGServiceError "OpenAI request failed")
  | ReplyNoText => Err (ESGServiceError "Unexpected OpenAI response format.")
  | ReplyText t => Ok t
  end.

(** [_analyse_with_openai]; the prompt built from [articles] only feeds the
    oracle, whose answer is [r]. *)
Definition analyse_with_openai (available : bool) (r : reply) (company_name : string)
    (articles : list article) : result analysis :=
  let* response_text := execute_openai_prompt available r in
  match Json.loads analysis_depth response_text with
  | Err JSONDecodeError => Err (ESGServiceError "Failed to parse OpenAI ESG analysis")
  | Err e => Err e
  | Ok parsed =>
      let* iv := Py.get parsed "items" (PList []) in
      let* raw := Py.iter iv in
      let* items := mapM normalize_item_structure raw in
      let items := sort_items_by_score items in
      let* ov := Py.get parsed "overall_score" PNone in
      let overall_score :=
        match ov with PNone => PFloat (compute_overall_score items) | _ => ov end in
      Ok (mkAnalysis items (Py.py_or overall_score (PInt 0)))
  end.

(** [' '.join(parts)] *)
Fixpoint join_space (parts : list pyval) : result string :=
  match parts with
  | [] => Ok ""
  | [PStr x] => Ok x
  | PStr x :: rest => let* r := join_space rest in Ok (x ++ " " ++ r)
  | _ :: _ => Err TypeError
  end.

(** esg/utils.py: [detect_esg_aspects] *)
Definition detect_esg_aspects (text : string) (keyword_map : list (string * list string))
  : list string :=
  let lowered := py_lower text in
  map fst (filter (fun ak => existsb (fun kw => contains kw lowered) (snd ak)) keyword_map).

(** The loop body of [_analyse_with_heuristics]. *)
Definition heuristic_item (article0 : article) : result item :=
  let* text := join_space (filter Py.truthy [a_title article0; a_description article0]) in
  let aspects := detect_esg_aspects text ESG_KEYWORDS in
  let base_score := PInt 70 in
  let sc := fold_left (fun d aspect => Py.dict_set d aspect base_score) aspects
              [("environment", PInt 0); ("social", PInt 0); ("governance", PInt 0)] in
  let* overall := calculate_weighted_score sc in
  let date_iso :=
    match a_published_at article0 with Some d => PStr (isoformat d) | None => PNone end in
  Ok (mkItem (a_title article0) (a_description article0) date_iso
        (format_display_date date_iso) (a_source article0) (a_url article0)
        (mkScores (dict_lookup sc "environment") (dict_lookup sc "social")
                  (dict_lookup sc "governance") overall)).

(** [_analyse_with_heuristics] *)
Definition analyse_with_heuristics (articles : list article) : result analysis :=
  let* items := mapM heuristic_item articles in
  let items := sort_items_by_score items in
  Ok (mkAnalysis items (PFloat (compute_overall_score items))).

(** [_analyse_articles]: only [ESGServiceError] is caught. *)
Definition analyse_articles (available : bool) (r : reply) (company_name : string)
    (articles : list article) : result analysis :=
  match articles with
  | [] => Ok (mkAnalysis [] (PInt 0))
  | _ =>
      if available then
        match analyse_with_openai available r company_name articles with
        | Err (ESGServiceError _) => analyse_with_heuristics articles
        | res => res
        end
      else analyse_with_heuristics articles
  end.

End Library.

(** ** esg/history.py: [SearchHistoryRepository.get_recent_searches] *)

Record search_row := mkRow { company_name : string; searched_at : Z }.

Fixpoint recent_loop (seen : list string) (qs : list search_row) (count limit : Z)
  : list search_row :=
  match qs with
  | [] => []
  | entry :: rest =>
      let key := py_lower (company_name entry) in
      if existsb (String.eqb key) seen then recent_loop seen rest count limit
      else
        let count' := count + 1 in
        entry :: (if limit <=? count' then [] else recent_loop (key :: seen) rest count' limit)
  end.

(** [qs]: the user's rows as the query [filter(user_id=...).order_by('-searched_at')]
    returns them. *)
Definition get_recent_searches (user_id limit : Z) (qs : list search_row) : list search_row :=
  if user_id =? 0 then [] else recent_loop [] qs 0 limit.

(** ** esg/history.py: [SearchHistoryRepository.record_search] *)

(** The [SearchHistory] table: each row with its [user_id]. *)
Record history_row := mkHist { h_user : Z; h_row : search_row }.

(** [now]: [timezone.now()]; [user_id = 0] stands for a falsy id. *)
Definition record_search (user_id : Z) (company_name : string) (now : Z)
    (db : list history_row) : list history_row :=
  if (user_id =? 0) || String.eqb company_name "" then db
  else
    let company_label := normalize_company_name company_name in
    db ++ [mkHist user_id (mkRow company_label now)].

(** [SearchHistory.objects.filter(user_id=u).order_by('-searched_at')]:
    the user's rows, newest first (the database orders equal times as it
    likes). *)
Definition user_rows (u : Z) (db : list history_row) : list search_row :=
  map h_row (filter (fun h => h_user h =? u) db).

Definition user_query (db : list history_row) (u : Z) (qs : list search_row) : Prop :=
  Permutation qs (user_rows u db)
  /\ StronglySorted (fun x y => searched_at y <= searched_at x) qs.

(** Tables built by [record_search] alone. *)
Inductive recorded : list history_row -> Prop :=
| recorded_empty : recorded []
| recorded_step u n t db : recorded db -> recorded (record_search u n t db).

(** ** esg/services.py: [_fetch_company_overview], [_build_profile] *)

Definition LOOKBACK_DAYS : Z := 730.

Definition fetch_company_overview (available : bool) (r : reply) (company_name : string)
  : result string :=
  if negb available then
    Ok ("Overview unavailable for " ++ company_name
        ++ ". Configure OPENAI_API_KEY to enable this summary.")
  else
    match execute_openai_prompt available r with
    | Ok response_text => Ok (py_strip response_text)
    | Err (ESGServiceError _) => Ok ("Overview unavailable for " ++ company_name ++ ".")
    | Err e => Err e
    end.

(** What one profile build sees of the outside: whether OpenAI is
    configured, the three oracle calls' outcomes (overview, web search,
    analysis), and the two [datetime.utcnow()] readings (in
    [fetch_articles], then in [_build_profile]). *)
Record world := mkWorld {
  w_available : bool;
  w_overview : reply;
  w_search : reply;
  w_analysis : reply;
  w_fetch_now : Z;
  w_now : Z
}.

Record profile := mkProfile {
  p_company : string;
  p_generated_at : string;
  p_generated_at_display : string;
  p_overview : string;
  p_overall_score : pyval;
  p_items : list item;
  p_total_items : Z;
  p_search_window_days : Z
}.

Section Profile.
Variable dateutil_parse : string -> option datetime.
Variable iso_str : datetime -> string.
Variable display_str : datetime -> string.
(** [strftime('%b %d, %Y at %I:%M %p UTC')] *)
Variable display_full : datetime -> string.
Variable fetch_depth : nat.
Variable analysis_depth : nat.

Definition build_profile (w : world) (max_items : Z) (company_name : string) : result profile :=
  let* overview := fetch_company_overview (w_available w) (w_overview w) company_name in
  let* articles := fetch_articles dateutil_parse fetch_depth (w_available w) (w_search w)
                     (w_fetch_now w) company_name max_items in
  let* analysis := analyse_articles dateutil_parse iso_str display_str analysis_depth
                     (w_available w) (w_analysis w) company_name articles in
  let now := Naive (w_now w) in
  Ok (mkProfile company_name (isoformat iso_str now) (display_full now) overview
        (an_overall_score analysis) (an_items analysis)
        (Z.of_nat (List.length (an_items analysis))) LOOKBACK_DAYS).

(** Django's local-memory cache ([LocMemCache]): an ordered dict, most
    recently used entry first, of values with their expiry time (seconds). *)
Record cache_entry := mkEntry { ce_value : profile; ce_expiry : Z }.

Fixpoint cache_lookup (c : list (string * cache_entry)) (k : string) : option cache_entry :=
  match c with
  | [] => None
  | (k', e) :: r => if String.eqb k k' then Some e else cache_lookup r k
  end.

(** [_delete(key)] *)
Definition cache_delete (c : list (string * cache_entry)) (k : string)
  : list (string * cache_entry) :=
  filter (fun kv => negb (String.eqb (fst kv) k)) c.

(** [cache.get(key)]: a value is live while [now < expiry] and then moves
    to the front; an expired key is deleted. *)
Definition cache_get (c : list (string * cache_entry)) (k : string) (now : Z)
  : option profile * list (string * cache_entry) :=
  match cache_lookup c k with
  | Some e =>
      if now <? ce_expiry e then (Some (ce_value e), (k, e) :: cache_delete c k)
      else (None, cache_delete c k)
  | None => (None, c)
  end.

(** The default [MAX_ENTRIES] and [CULL_FREQUENCY] of the cache options. *)
Definition MAX_ENTRIES : nat := 300.
Definition CULL_FREQUENCY : nat := 3.

(** [_cull]: [len // CULL_FREQUENCY] entries are popped from the least
    recently used end. *)
Definition cache_cull (c : list (string * cache_entry)) : list (string * cache_entry) :=
  firstn (List.length c - List.length c / CULL_FREQUENCY) c.

(** [cache.set(key, value, timeout=t)]: a full cache is culled first; the
    key then holds the new entry at the front.  A timeout of 0 stores an
    already expired value. *)
Definition cache_set (c : list (string * cache_entry)) (k : string) (v : profile)
    (timeout now : Z) : list (string * cache_entry) :=
  let expiry := if timeout =? 0 then now - 1 else now + timeout in
  let c0 := if (MAX_ENTRIES <=? List.length c)%nat then cache_cull c else c in
  (k, mkEntry v expiry) :: cache_delete c0 k.

Record service := mkService { cache_timeout : Z; max_items : Z }.

(** [ESGService()] *)
Definition default_service : service := mkService (60 * 60) 50.

(** [get_company_esg_profile]: a stored profile is a non-empty dict, so
    [if cached_value] holds for every hit. *)
Definition get_company_esg_profile (svc : service) (w : world) (now : Z)
    (c : list (string * cache_entry)) (company_name : string)
  : result (profile * bool) * list (string * cache_entry) :=
  let normalized := normalize_company_name company_name in
  let cache_key := make_cache_key normalized in
  let (cached_value, c1) := cache_get c cache_key now in
  match cached_value with
  | Some v => (Ok (v, true), c1)
  | None =>
      match build_profile w (max_items svc) normalized with
      | Ok p => (Ok (p, false), cache_set c1 cache_key p (cache_timeout svc) now)
      | Err e => (Err e, c1)
      end
  end.

(** dashboard/views.py: [_handle_company_search]: the search is recorded
    only once the profile has been obtained. *)
Definition handle_company_search (w : world) (now : Z) (c : list (string * cache_entry))
    (db : list history_row) (user_id : Z) (company_name : string)
  : result (profile * bool) * list (string * cache_entry) * list history_row :=
  let (res, c') := get_company_esg_profile default_service w now c company_name in
  match res with
  | Ok r => (Ok r, c', record_search user_id company_name now db)
  | Err e => (Err e, c', db)
  end.

End Profile.

(** ** Test inputs and auxiliary notions *)

(** The string keys of a list of articles, in order. *)
Definition str_keys (l : list article) : list string :=
  flat_map (fun a => match unique_key a with PStr u => [u] | _ => [] end) l.

(** [sub] occurs in [s] as a contiguous piece. *)
Definition infix (sub s : string) : Prop := exists pre post, s = (pre ++ sub ++ post)%string.

(** Every whitespace character is a plain space. *)
Fixpoint blank_spaces (s : string) : bool :=
  match s with
  | EmptyString => true
  | String c r => (negb (is_space c) || (c =? " ")%char) && blank_spaces r
  end.

(** An article as [fetch_articles] builds it. *)
Definition sample_article (title description url : string) (at_ : Z) : article :=
  mkArticle (PStr title) (PStr description) (PStr url) PNone (Some (Aware at_ 0))
    "openai_web_search".

(** The library left unspecified: nothing parses, every rendering is empty. *)
Definition no_parse : string -> option datetime := fun _ => None.
Definition no_render : datetime -> string := fun _ => "".

(** A [dateutil] that reads one date, [2024-05-01] (UTC, in microseconds). *)
Definition parse_one (s : string) : option datetime :=
  if String.eqb s "2024-05-01" then Some (Naive 1714521600000000) else None.

Definition published_instant (e : article) : Z := dt_key (published_key e).

Definition string_keyed (e : article) : Prop :=
  unique_key e = PNone \/ exists u, unique_key e = PStr u.

(** Orders and selections by an integer key. *)
Definition lt_by {A} (f : A -> Z) (a b : A) : bool := f a <? f b.
Definition desc_by {A} (f : A -> Z) (x y : A) : Prop := f y <= f x.
Definition has_key {A} (f : A -> Z) (k : Z) (x : A) : bool := f x =? k.

Definition no_svc {A} (r : result A) : Prop := forall m, r <> Err (ESGServiceError m).

Inductive subseq {A} : list A -> list A -> Prop :=
| subseq_nil : subseq [] []
| subseq_keep x l l' : subseq l l' -> subseq (x :: l) (x :: l')
| subseq_skip x l l' : subseq l l' -> subseq l (x :: l').

Definition row_key (r : search_row) : string := py_lower (company_name r).

(** Test texts are written with ['] for the double quote. *)
Definition dquote (s : string) : string :=
  string_of_list_ascii
    (map (fun c => if (c =? "'")%char then "034"%char else c) (list_ascii_of_string s)).

Example sha1_abc :
  Sha1.hexdigest (Sha1.sha1 (utf8_encode "abc")) = "a9993e364706816aba3e25717850c26c9cd0d89d".
Proof. vm_compute. reflexivity. Qed.

Example sha1_empty :
  Sha1.hexdigest (Sha1.sha1 []) = "da39a3ee5e6b4b0d3255bfef95601890afd80709".
Proof. vm_compute. reflexivity. Qed.

Example normalize_adani : normalize_company_name "  Adani   Power " = "Adani Power".
Proof. reflexivity. Qed.

Example round2_samples :
  map Flt.round2 [2.675%float; 0.125%float; 28%float; 1.005%float; 33.335%float]
  = [2.67%float; 0.12%float; 28%float; 1%float; 33.34%float].
Proof. vm_compute. reflexivity. Qed.

Example of_str_samples :
  map Flt.of_str [" 12.5 "; "1_000"; "1e3"; "-inf"; "abc"; "1__0"; ".5"; "5."; "."]
  = [Some 12.5%float; Some 1000%float; Some 1000%float; Some neg_infinity; None; None;
     Some 0.5%float; Some 5%float; None].
Proof. vm_compute. reflexivity. Qed.

Example of_int_samples :
  map Flt.of_int [70; 0; 2 ^ 53 + 1; 2 ^ 1024]
  = [Ok 70%float; Ok 0%float; Ok 9007199254740992%float; Err OverflowError].
Proof. vm_compute. reflexivity. Qed.

Example loads_samples :
  map (fun t => Json.loads 100 (dquote t))
    ["[]"; " {'a': [1, 2.5, 'x'], 'b': null} "; "[1,]"; "01"; "{'a':1,'a':2}"; "NaN"]
  = [Ok (PList []);
     Ok (PDict [("a", PList [PInt 1; PFloat 2.5%float; PStr "x"]); ("b", PNone)]);
     Err JSONDecodeError; Err JSONDecodeError; Ok (PDict [("a", PInt 2)]); Ok (PFloat nan)].
Proof. vm_compute. reflexivity. Qed.

(** A run of [n] digits [1]. *)
Fixpoint ones (n : nat) : string :=
  match n with O => EmptyString | S k => String "1" (ones k) end.

Example loads_limits :
  Json.loads 100 (ones 4300) = Ok (PInt ((10 ^ 4300 - 1) / 9))
  /\ Json.loads 100 ("[" ++ ones 4301 ++ ",") = Err ValueError
  /\ Json.loads 100 (ones 4301 ++ ".0") <> Err ValueError
  /\ Json.loads 2 "[[]]" = Ok (PList [PList []])
  /\ Json.loads 2 "[[[]]]" = Err RecursionError
  /\ Json.loads 2 "[[[" = Err RecursionError.
Proof. vm_compute. repeat split; discriminate. Qed.

Example payload_samples :
  map (fun t => parse_articles_payload 100 (dquote t))
    ["Here: ```json" ++ String "010" "{'articles': []}" ++ String "010" "```";
     "text {'articles': [1]} more"; "no json"; "text {'articles': [} more";
     "``` {'a': [[[1]]]} ``` {}"]
  = [Ok (PDict [("articles", PList [])]); Ok (PDict [("articles", PList [PInt 1])]);
     Err JSONDecodeError; Err JSONDecodeError; Ok (PDict [("a", PList [PList [PList [PInt 1]]])])].
Proof. vm_compute. reflexivity. Qed.

Example payload_recursion :
  parse_articles_payload 2 (dquote "``` {'a': [[1]]} ``` {}") = Err RecursionError.
Proof. vm_compute. reflexivity. Qed.

(** * Properties *)

(** ** The decoder's exceptions *)

Module JsonProofs.

(** The exceptions [json.loads] can raise. *)
Definition json_exc (e : exc) : Prop :=
  e = JSONDecodeError \/ e = ValueError \/ e = RecursionError.

Lemma scan_number_exc s r e : Json.scan_number s = Some (Err e, r) -> e = ValueError.
Proof.
  unfold Json.scan_number. intros H.
  repeat (match type of H with context [match ?x with _ => _ end] => destruct x end);
    try discriminate; injection H; intros; subst; reflexivity.
Qed.

Ltac exc_cases IH :=
  repeat match goal with
  | H : Err _ = Err _ |- _ => injection H as <-
  | H : Ok _ = Err _ |- _ => discriminate H
  | |- json_exc JSONDecodeError => left; reflexivity
  | |- json_exc RecursionError => right; right; reflexivity
  | H : Json.value _ _ _ = Err ?e |- json_exc ?e => exact (proj1 IH _ _ _ H)
  | H : Json.elements _ _ _ _ = Err ?e |- json_exc ?e => exact (proj1 (proj2 IH) _ _ _ _ H)
  | H : Json.members _ _ _ _ _ = Err ?e |- json_exc ?e => exact (proj2 (proj2 IH) _ _ _ _ _ H)
  | H : Json.scan_number _ = Some (Err ?e, _) |- json_exc ?e =>
      right; left; exact (scan_number_exc _ _ _ H)
  | H : context [match Json.value ?d ?n ?s with _ => _ end] |- _ =>
      destruct (Json.value d n s) as [[? ?]|?] eqn:?
  | H : context [match Json.scan_number ?s with _ => _ end] |- _ =>
      destruct (Json.scan_number s) as [[[?|?] ?]|] eqn:?
  | H : context [match ?x with _ => _ end] |- _ => destruct x
  end.

Lemma value_exc n :
  (forall d s e, Json.value d n s = Err e -> json_exc e)
  /\ (forall d acc s e, Json.elements d n acc s = Err e -> json_exc e)
  /\ (forall d acc s first e, Json.members d n acc s first = Err e -> json_exc e).
Proof.
  induction n as [|n IH].
  - repeat split; intros; simpl in *; injection H as <-; left; reflexivity.
  - repeat split; intros; simpl in H; exc_cases IH.
Qed.

Lemma loads_exc depth s e : Json.loads depth s = Err e -> json_exc e.
Proof.
  unfold Json.loads. intros H.
  destruct (Json.value depth _ (Json.skip_ws s)) as [[v rest]|e'] eqn:Hv.
  - destruct (Json.skip_ws rest); [discriminate | injection H as <-; left; reflexivity].
  - injection H as <-. exact (proj1 (value_exc _) _ _ _ Hv).
Qed.

Lemma loads_no_svc depth s m : Json.loads depth s <> Err (ESGServiceError m).
Proof.
  intros H. destruct (loads_exc _ _ _ H) as [H'|[H'|H']]; discriminate H'.
Qed.

Lemma first_parse_exc depth blocks e :
  first_parse depth blocks = Err e -> json_exc e /\ e <> JSONDecodeError.
Proof.
  induction blocks as [|b bs IH]; simpl; [discriminate|].
  destruct (Json.loads depth b) as [v|e'] eqn:Hb; [discriminate|].
  destruct e'; try (intros H; injection H as <-; split; [eapply loads_exc; eauto | discriminate]).
  exact IH.
Qed.

Lemma payload_exc depth raw_text e :
  parse_articles_payload depth raw_text = Err e -> json_exc e.
Proof.
  unfold parse_articles_payload. cbv zeta.
  destruct (Json.loads depth (py_strip raw_text)) as [v|e'] eqn:H0; [discriminate|].
  destruct e'; try (intros H; injection H as <-; eapply loads_exc; eauto).
  destruct (first_parse depth _) as [[v|]|e'] eqn:H1; simpl.
  - discriminate.
  - destruct (_ && _); [|intros H; injection H as <-; left; reflexivity].
    apply loads_exc.
  - intros H; injection H as <-. exact (proj1 (first_parse_exc _ _ _ H1)).
Qed.

End JsonProofs.

(** ** Whitespace normalisation *)

Module NormalizeProofs.

Lemma ends_cons (c : ascii) (x : string) :
  x <> EmptyString -> ends_with_space (String c x) = ends_with_space x.
Proof. destruct x; [congruence | reflexivity]. Qed.

Lemma adjacent_cons (c : ascii) (x : string) :
  has_adjacent_spaces (String c x)
  = (starts_with_space x && is_space c) || has_adjacent_spaces x.
Proof. destruct x; simpl; [reflexivity | now rewrite andb_comm]. Qed.

Lemma lstrip_no_leading (s : string) : starts_with_space (lstrip s) = false.
Proof.
  induction s as [|c r IH]; simpl; [reflexivity|].
  destruct (is_space c) eqn:E; [exact IH | simpl; exact E].
Qed.

Lemma rstrip_keeps_head (s : string) :
  starts_with_space s = false -> starts_with_space (rstrip s) = false.
Proof.
  destruct s as [|c r]; simpl; [reflexivity|]. intros H.
  destruct (rstrip r); [rewrite H; simpl; exact H | exact H].
Qed.

Lemma rstrip_no_trailing (s : string) : ends_with_space (rstrip s) = false.
Proof.
  induction s as [|c r IH]; simpl; [reflexivity|].
  destruct (rstrip r) as [|a r'] eqn:E.
  - destruct (is_space c) eqn:Ec; simpl; [reflexivity | exact Ec].
  - rewrite ends_cons by discriminate. exact IH.
Qed.

Lemma sub_ws_no_trailing (s : string) (b : bool) :
  s <> EmptyString -> ends_with_space s = false ->
  sub_ws b s <> EmptyString /\ ends_with_space (sub_ws b s) = false.
Proof.
  revert b. induction s as [|c r IH]; intros b Hne He; [congruence|].
  destruct (string_dec r EmptyString) as [->|Hr].
  - simpl in He |- *. rewrite He. split; [discriminate | exact He].
  - rewrite ends_cons in He by exact Hr.
    destruct (IH true Hr He) as [IH1 IH2]. destruct (IH false Hr He) as [IH3 IH4].
    simpl. destruct (is_space c), b.
    + split; assumption.
    + split; [discriminate|]. rewrite ends_cons by exact IH1. exact IH2.
    + split; [discriminate|]. rewrite ends_cons by exact IH3. exact IH4.
    + split; [discriminate|]. rewrite ends_cons by exact IH3. exact IH4.
Qed.

Lemma sub_ws_shape (s : string) (b : bool) :
  has_adjacent_spaces (sub_ws b s) = false
  /\ (b = true -> starts_with_space (sub_ws b s) = false).
Proof.
  revert b. induction s as [|c r IH]; intros b; simpl; [split; reflexivity|].
  destruct (IH true) as [A1 S1]. destruct (IH false) as [A2 _].
  destruct (is_space c) eqn:Ec, b.
  - split; [exact A1 | intros _; exact (S1 eq_refl)].
  - split; [|discriminate].
    rewrite adjacent_cons, (S1 eq_refl), A1. reflexivity.
  - split; [|intros _; simpl; exact Ec].
    rewrite adjacent_cons, Ec, andb_false_r, A2. reflexivity.
  - split; [|discriminate].
    rewrite adjacent_cons, Ec, andb_false_r, A2. reflexivity.
Qed.

Lemma sub_ws_keeps_head (s : string) (b : bool) :
  starts_with_space s = false -> starts_with_space (sub_ws b s) = false.
Proof. destruct s as [|c r]; simpl; [reflexivity|]. intros H. rewrite H. exact H. Qed.

Lemma sub_ws_blank (s : string) (b : bool) : blank_spaces (sub_ws b s) = true.
Proof.
  revert b. induction s as [|c r IH]; intros b; simpl; [reflexivity|].
  destruct (is_space c) eqn:Ec, b; simpl; rewrite ?Ec, ?IH; reflexivity.
Qed.

Lemma lstrip_id (s : string) : starts_with_space s = false -> lstrip s = s.
Proof. destruct s as [|c r]; simpl; [reflexivity|]. intros H; rewrite H; reflexivity. Qed.

Lemma rstrip_id (s : string) : ends_with_space s = false -> rstrip s = s.
Proof.
  induction s as [|c r IH]; intros H; [reflexivity|].
  destruct (string_dec r EmptyString) as [->|Hr].
  - simpl in H |- *. rewrite H. reflexivity.
  - rewrite ends_cons in H by exact Hr. simpl. rewrite (IH H).
    destruct r; [congruence | reflexivity].
Qed.

Lemma sub_ws_id (t : string) (b : bool) :
  blank_spaces t = true -> has_adjacent_spaces t = false ->
  (b = true -> starts_with_space t = false) -> sub_ws b t = t.
Proof.
  revert b. induction t as [|c r IH]; intros b Hb Ha Hs; [reflexivity|].
  simpl in Hb. apply andb_prop in Hb as [Hc Hr].
  rewrite adjacent_cons in Ha. apply orb_false_elim in Ha as [Hh Ha].
  simpl. destruct (is_space c) eqn:Ec.
  - destruct b; [specialize (Hs eq_refl); simpl in Hs; congruence|].
    simpl in Hc. apply Ascii.eqb_eq in Hc. subst c.
    rewrite andb_true_r in Hh.
    rewrite (IH true Hr Ha (fun _ => Hh)). reflexivity.
  - rewrite (IH false Hr Ha (fun H => ltac:(discriminate H))). reflexivity.
Qed.

Lemma normalize_shape (s : string) :
  starts_with_space (normalize_company_name s) = false
  /\ ends_with_space (normalize_company_name s) = false
  /\ has_adjacent_spaces (normalize_company_name s) = false.
Proof.
  unfold normalize_company_name, py_strip.
  split; [apply sub_ws_keeps_head, rstrip_keeps_head, lstrip_no_leading|].
  split; [|apply sub_ws_shape].
  destruct (string_dec (rstrip (lstrip s)) EmptyString) as [E|Hne].
  - rewrite E. reflexivity.
  - apply (sub_ws_no_trailing _ false Hne), rstrip_no_trailing.
Qed.

(** ** Case folding commutes with normalisation *)

Lemma is_space_lower (c : ascii) : is_space (lower_char c) = is_space c.
Proof.
  destruct c as [b0 b1 b2 b3 b4 b5 b6 b7].
  destruct b0, b1, b2, b3, b4, b5, b6, b7; vm_compute; reflexivity.
Qed.

Lemma lower_space_char (c : ascii) : is_space c = true -> lower_char c = c.
Proof.
  destruct c as [b0 b1 b2 b3 b4 b5 b6 b7].
  destruct b0, b1, b2, b3, b4, b5, b6, b7; vm_compute; congruence.
Qed.

Lemma lower_lstrip (s : string) : py_lower (lstrip s) = lstrip (py_lower s).
Proof.
  induction s as [|c r IH]; simpl; [reflexivity|].
  rewrite is_space_lower. destruct (is_space c); [exact IH | reflexivity].
Qed.

Lemma lower_rstrip (s : string) : py_lower (rstrip s) = rstrip (py_lower s).
Proof.
  induction s as [|c r IH]; simpl; [reflexivity|].
  rewrite <- IH, is_space_lower.
  destruct (rstrip r); simpl; [destruct (is_space c); reflexivity | reflexivity].
Qed.

Lemma lower_sub_ws (s : string) (b : bool) : py_lower (sub_ws b s) = sub_ws b (py_lower s).
Proof.
  revert b. induction s as [|c r IH]; intros b; simpl; [reflexivity|].
  rewrite is_space_lower. destruct (is_space c), b; simpl; rewrite ?IH; reflexivity.
Qed.

Lemma lower_normalize (s : string) :
  py_lower (normalize_company_name s) = normalize_company_name (py_lower s).
Proof.
  unfold normalize_company_name, py_strip.
  rewrite lower_sub_ws, lower_rstrip, lower_lstrip. reflexivity.
Qed.

Lemma length_string_of_list (l : list ascii) :
  String.length (string_of_list_ascii l) = List.length l.
Proof. induction l; simpl; congruence. Qed.

Lemma length_app (a b : string) :
  String.length (a ++ b) = (String.length a + String.length b)%nat.
Proof. induction a; simpl; congruence. Qed.

Lemma hexdigest_length (h : Sha1.st) : String.length (Sha1.hexdigest h) = 40%nat.
Proof.
  unfold Sha1.hexdigest, Sha1.hex8. rewrite !length_app, !length_string_of_list.
  reflexivity.
Qed.

End NormalizeProofs.

(** C10: [normalize_company_name] is idempotent and its result has no
    leading, trailing or adjacent whitespace. *)
Theorem normalize_company_name_idempotent_shape (s : string) :
  normalize_company_name (normalize_company_name s) = normalize_company_name s
  /\ starts_with_space (normalize_company_name s) = false
  /\ ends_with_space (normalize_company_name s) = false
  /\ has_adjacent_spaces (normalize_company_name s) = false.
Proof.
  destruct (NormalizeProofs.normalize_shape s) as [Hs [He Ha]].
  split; [|auto].
  unfold normalize_company_name at 1. unfold py_strip.
  rewrite (NormalizeProofs.lstrip_id _ Hs), (NormalizeProofs.rstrip_id _ He).
  apply NormalizeProofs.sub_ws_id; [apply NormalizeProofs.sub_ws_blank | exact Ha | discriminate].
Qed.

(** C7: [make_cache_key] is ["esg:company:"] followed by the 40-character
    SHA-1 hex digest of the lowercased normalised name; names equal up to
    case and whitespace runs get the same key, e.g. "Adani Power" and
    " adani  power". *)
Theorem make_cache_key_spec :
  (forall s,
      make_cache_key s
      = "esg:company:" ++ Sha1.hexdigest (Sha1.sha1 (utf8_encode (py_lower (normalize_company_name s))))
      /\ String.length (Sha1.hexdigest (Sha1.sha1 (utf8_encode (py_lower (normalize_company_name s)))))
         = 40%nat)
  /\ (forall s t,
      normalize_company_name (py_lower s) = normalize_company_name (py_lower t) ->
      make_cache_key s = make_cache_key t)
  /\ make_cache_key "Adani Power" = make_cache_key " adani  power".
Proof.
  split; [intros s; split; [reflexivity | apply NormalizeProofs.hexdigest_length]|].
  assert (Inv : forall s t,
      normalize_company_name (py_lower s) = normalize_company_name (py_lower t) ->
      make_cache_key s = make_cache_key t).
  { intros s t H. unfold make_cache_key.
    rewrite !NormalizeProofs.lower_normalize, H. reflexivity. }
  split; [exact Inv|]. apply Inv. reflexivity.
Qed.

Lemma make_cache_key_spec_witness :
  normalize_company_name (py_lower "ACME  Corp ") = normalize_company_name (py_lower "acme corp")
  /\ make_cache_key "ACME  Corp " = make_cache_key "acme corp".
Proof.
  split; [reflexivity|].
  apply (proj1 (proj2 make_cache_key_spec)). reflexivity.
Defined.

(** ** Deduplication *)

Module DedupProofs.

Lemma truthy_str (u : string) : u <> EmptyString -> Py.truthy (PStr u) = true.
Proof. destruct u; [congruence | reflexivity]. Qed.

Lemma set_key_eq_str (u : string) (v : pyval) :
  set_key_eq (PStr u) v = true -> v = PStr u.
Proof.
  destruct v; simpl; try discriminate.
  intros H. apply String.eqb_eq in H. subst. reflexivity.
Qed.

Lemma set_key_eq_str_refl (u : string) : set_key_eq (PStr u) (PStr u) = true.
Proof. simpl. apply String.eqb_refl. Qed.

Lemma existsb_str_in (u : string) (seen : list pyval) :
  existsb (set_key_eq (PStr u)) seen = true <-> In (PStr u) seen.
Proof.
  rewrite existsb_exists. split.
  - intros [v [Hin Hv]]. apply set_key_eq_str in Hv. subst. exact Hin.
  - intros Hin. exists (PStr u). split; [exact Hin | apply set_key_eq_str_refl].
Qed.

(** An entry whose key is already in [seen] leaves the result unchanged. *)
Lemma skip_seen (u : string) (b : article) (mid post : list article) (seen : list pyval) :
  unique_key b = PStr u -> u <> EmptyString -> In (PStr u) seen ->
  dedup_loop seen (mid ++ b :: post) = dedup_loop seen (mid ++ post).
Proof.
  intros Hb Hu. revert seen. induction mid as [|x mid IH]; intros seen Hin; simpl.
  - rewrite Hb, (truthy_str u Hu). simpl.
    rewrite (proj2 (existsb_str_in u seen) Hin). reflexivity.
  - destruct (Py.truthy (unique_key x)); simpl; [|apply IH; exact Hin].
    destruct (hashable (unique_key x)); simpl; [|reflexivity].
    destruct (existsb (set_key_eq (unique_key x)) seen); [apply IH; exact Hin|].
    rewrite IH by (right; exact Hin). reflexivity.
Qed.

(** A later entry with the same string key as [a] is dropped. *)
Lemma drop_later_duplicate (u : string) (a b : article) (pre mid post : list article)
    (seen : list pyval) :
  unique_key a = PStr u -> unique_key b = PStr u -> u <> EmptyString ->
  dedup_loop seen (pre ++ a :: mid ++ b :: post) = dedup_loop seen (pre ++ a :: mid ++ post).
Proof.
  intros Ha Hb Hu. revert seen. induction pre as [|x pre IH]; intros seen; simpl.
  - rewrite Ha, (truthy_str u Hu). simpl.
    destruct (existsb (set_key_eq (PStr u)) seen) eqn:E.
    + apply (skip_seen u b mid post seen Hb Hu). apply existsb_str_in. exact E.
    + rewrite (skip_seen u b mid post (PStr u :: seen) Hb Hu) by (left; reflexivity).
      reflexivity.
  - destruct (Py.truthy (unique_key x)); simpl; [|apply IH].
    destruct (hashable (unique_key x)); simpl; [|reflexivity].
    destruct (existsb (set_key_eq (unique_key x)) seen); [apply IH|].
    rewrite IH. reflexivity.
Qed.

Lemma drop_keyless (e : article) (pre post : list article) (seen : list pyval) :
  Py.truthy (a_url e) = false -> Py.truthy (a_title e) = false ->
  dedup_loop seen (pre ++ e :: post) = dedup_loop seen (pre ++ post).
Proof.
  intros Hu Ht. revert seen. induction pre as [|x pre IH]; intros seen; simpl.
  - unfold unique_key. rewrite Hu, Ht. reflexivity.
  - destruct (Py.truthy (unique_key x)); simpl; [|apply IH].
    destruct (hashable (unique_key x)); simpl; [|reflexivity].
    destruct (existsb (set_key_eq (unique_key x)) seen); [apply IH|].
    rewrite IH. reflexivity.
Qed.

(** Keys that are strings (or absent) never make the loop raise. *)

Lemma string_keyed_ok (l : list article) (s : list pyval) :
  Forall string_keyed l -> exists k, dedup_loop s l = Ok k.
Proof.
  intros Hl. revert s. induction Hl as [|y l Hy Hl IH]; intros s; simpl.
  - exists []. reflexivity.
  - destruct Hy as [Hy|[w Hy]]; rewrite Hy; simpl; [apply IH|].
    destruct w as [|c w]; simpl; [apply IH|].
    destruct (existsb (set_key_eq (PStr (String c w))) s); [apply IH|].
    destruct (IH (PStr (String c w) :: s)) as [k Hk]. rewrite Hk. exists (y :: k). reflexivity.
Qed.

Lemma keep_first (u : string) (a : article) (pre post : list article) (seen : list pyval) :
  unique_key a = PStr u -> u <> EmptyString ->
  Forall string_keyed (pre ++ a :: post) ->
  ~ In (PStr u) seen -> Forall (fun e => unique_key e <> PStr u) pre ->
  exists kept, dedup_loop seen (pre ++ a :: post) = Ok kept /\ In a kept.
Proof.
  intros Ha Hu. revert seen.
  induction pre as [|x pre IH]; intros seen Hall Hnin Hpre; simpl.
  - rewrite Ha, (truthy_str u Hu). simpl.
    destruct (existsb (set_key_eq (PStr u)) seen) eqn:E.
    + apply existsb_str_in in E. contradiction.
    + inversion Hall as [|? ? _ Hp]; subst.
      destruct (string_keyed_ok post (PStr u :: seen) Hp) as [k Hk]. rewrite Hk. simpl.
      exists (a :: k). split; [reflexivity | left; reflexivity].
  - inversion Hall as [|? ? Hx Hrest]; subst. inversion Hpre as [|? ? Hxu Hpre']; subst.
    destruct Hx as [Hx|[w Hx]]; rewrite Hx; simpl; [apply IH; assumption|].
    destruct w as [|c w]; simpl; [apply IH; assumption|].
    match goal with |- context [existsb ?f seen] => destruct (existsb f seen) end;
      [apply IH; assumption|].
    destruct (IH (PStr (String c w) :: seen) Hrest) as [k [Hk Hink]].
    + intros [Hw|Hw]; [apply Hxu; rewrite Hx; exact Hw | contradiction].
    + exact Hpre'.
    + rewrite Hk. simpl. exists (x :: k). split; [reflexivity | right; exact Hink].
Qed.

End DedupProofs.

(** C5: [deduplicate_articles] keys each entry by its first non-empty field
    among url and title.  A later entry with the same url as an earlier one
    is dropped; so is a later url-less entry with the same title; an entry
    with neither is dropped; and the first entry with a given key is kept
    (when the keys are strings, so that no [TypeError] is raised). *)
Theorem deduplicate_articles_first_occurrence :
  (forall (u : string) (a b : article) (pre mid post : list article),
      a_url a = PStr u -> a_url b = PStr u -> u <> EmptyString ->
      deduplicate_articles (pre ++ a :: mid ++ b :: post)
      = deduplicate_articles (pre ++ a :: mid ++ post))
  /\ (forall (t : string) (a b : article) (pre mid post : list article),
      Py.truthy (a_url a) = false -> Py.truthy (a_url b) = false ->
      a_title a = PStr t -> a_title b = PStr t -> t <> EmptyString ->
      deduplicate_articles (pre ++ a :: mid ++ b :: post)
      = deduplicate_articles (pre ++ a :: mid ++ post))
  /\ (forall (e : article) (pre post : list article),
      Py.truthy (a_url e) = false -> Py.truthy (a_title e) = false ->
      deduplicate_articles (pre ++ e :: post) = deduplicate_articles (pre ++ post))
  /\ (forall (u : string) (a : article) (pre post : list article),
      unique_key a = PStr u -> u <> EmptyString ->
      Forall string_keyed (pre ++ a :: post) ->
      Forall (fun e => unique_key e <> PStr u) pre ->
      exists kept, deduplicate_articles (pre ++ a :: post) = Ok kept /\ In a kept).
Proof.
  unfold deduplicate_articles. split; [|split; [|split]].
  - intros u a b pre mid post Ha Hb Hu.
    apply (DedupProofs.drop_later_duplicate u); [| |exact Hu];
      unfold unique_key; [rewrite Ha | rewrite Hb]; rewrite (DedupProofs.truthy_str u Hu); reflexivity.
  - intros t a b pre mid post Ua Ub Ha Hb Ht.
    apply (DedupProofs.drop_later_duplicate t); [| |exact Ht];
      unfold unique_key; [rewrite Ua, Ha | rewrite Ub, Hb]; rewrite (DedupProofs.truthy_str t Ht); reflexivity.
  - intros e pre post Hu Ht. apply DedupProofs.drop_keyless; assumption.
  - intros u a pre post Ha Hu Hall Hpre.
    apply (DedupProofs.keep_first u); [exact Ha | exact Hu | exact Hall | intros [] | exact Hpre].
Qed.

(** A witness: two entries with url [u], two url-less entries titled [T],
    an entry with neither, and a first occurrence that is kept. *)
Lemma deduplicate_articles_first_occurrence_witness :
  deduplicate_articles ([] ++ sample_article "A" "" "u" 0 :: [] ++ [sample_article "B" "" "u" 1])
  = deduplicate_articles ([] ++ sample_article "A" "" "u" 0 :: [] ++ [])
  /\ deduplicate_articles
       ([] ++ mkArticle (PStr "T") (PStr "") PNone PNone None "openai_web_search"
          :: [] ++ [mkArticle (PStr "T") (PStr "d") (PStr "") PNone None "openai_web_search"])
     = deduplicate_articles
       ([] ++ mkArticle (PStr "T") (PStr "") PNone PNone None "openai_web_search" :: [] ++ [])
  /\ deduplicate_articles
       ([] ++ mkArticle (PStr "") (PStr "d") PNone PNone None "openai_web_search" :: [])
     = deduplicate_articles ([] ++ [])
  /\ exists kept, deduplicate_articles ([] ++ sample_article "A" "" "u" 0 :: []) = Ok kept
       /\ In (sample_article "A" "" "u" 0) kept.
Proof.
  destruct deduplicate_articles_first_occurrence as [P1 [P2 [P3 P4]]].
  split; [|split; [|split]].
  - apply (P1 "u"); [reflexivity | reflexivity | discriminate].
  - apply (P2 "T"); [reflexivity | reflexivity | reflexivity | reflexivity | discriminate].
  - apply P3; reflexivity.
  - apply (P4 "u"); [reflexivity | discriminate | | constructor].
    constructor; [right; exists "u"; reflexivity | constructor].
Defined.

(** ** Stable descending sort *)

Module SortProofs.
Local Open Scope list_scope.
Section ByKey.
Context {A : Type} (f : A -> Z).


Lemma insert_perm (x : A) (l : list A) : Permutation (insert_desc (lt_by f) x l) (x :: l).
Proof.
  induction l as [|y l IH]; simpl; [reflexivity|].
  destruct (lt_by f y x); [reflexivity|].
  rewrite IH. apply perm_swap.
Qed.

Lemma insert_forall (P : A -> Prop) (x : A) (l : list A) :
  Forall P l -> P x -> Forall P (insert_desc (lt_by f) x l).
Proof.
  intros Hl Hx. induction Hl as [|y l Hy Hl IH]; simpl; [constructor; auto|].
  destruct (lt_by f y x); constructor; auto.
Qed.

Lemma insert_sorted (x : A) (l : list A) :
  StronglySorted (desc_by f) l -> StronglySorted (desc_by f) (insert_desc (lt_by f) x l).
Proof.
  induction 1 as [|y l Hs IH Hy]; simpl; [repeat constructor|].
  unfold lt_by. destruct (f y <? f x) eqn:E.
  - apply Z.ltb_lt in E. constructor; [constructor; assumption|].
    constructor; [unfold desc_by; lia|].
    eapply Forall_impl; [|exact Hy]. unfold desc_by. intros z Hz. lia.
  - apply Z.ltb_ge in E. constructor; [exact IH|].
    apply insert_forall; [exact Hy | unfold desc_by; lia].
Qed.

Lemma filter_none (k : Z) (l : list A) :
  Forall (fun z => f z < k) l -> filter (has_key f k) l = [].
Proof.
  induction 1 as [|y l Hy _ IH]; simpl; [reflexivity|].
  unfold has_key at 1. replace (f y =? k) with false by lia. exact IH.
Qed.

Lemma insert_filter (k : Z) (x : A) (l : list A) :
  StronglySorted (desc_by f) l ->
  filter (has_key f k) (insert_desc (lt_by f) x l)
  = filter (has_key f k) l ++ (if has_key f k x then [x] else []).
Proof.
  induction 1 as [|y l Hs IH Hy]; [simpl; destruct (has_key f k x); reflexivity|].
  cbn [insert_desc]. unfold lt_by at 1. destruct (f y <? f x) eqn:E.
  - apply Z.ltb_lt in E.
    change (filter (has_key f k) (x :: y :: l)) with
      (if has_key f k x then x :: filter (has_key f k) (y :: l) else filter (has_key f k) (y :: l)).
    destruct (has_key f k x) eqn:Hx.
    + unfold has_key in Hx. apply Z.eqb_eq in Hx.
      rewrite (filter_none k (y :: l)); [reflexivity|].
      constructor; [lia|]. eapply Forall_impl; [|exact Hy]. unfold desc_by. intros z Hz. lia.
    + rewrite app_nil_r. reflexivity.
  - simpl. destruct (has_key f k y); simpl; rewrite IH; reflexivity.
Qed.

Lemma fold_insert (l acc : list A) :
  StronglySorted (desc_by f) acc ->
  let r := fold_left (fun acc x => insert_desc (lt_by f) x acc) l acc in
  StronglySorted (desc_by f) r /\ Permutation r (acc ++ l)
  /\ forall k, filter (has_key f k) r = filter (has_key f k) acc ++ filter (has_key f k) l.
Proof.
  revert acc. induction l as [|x l IH]; intros acc Hs; simpl.
  - rewrite app_nil_r. split; [exact Hs|]. split; [reflexivity|].
    intros k. rewrite app_nil_r. reflexivity.
  - destruct (IH (insert_desc (lt_by f) x acc) (insert_sorted x acc Hs)) as [H1 [H2 H3]].
    split; [exact H1|]. split.
    + rewrite H2, insert_perm. apply Permutation_middle.
    + intros k. rewrite H3, insert_filter by exact Hs. rewrite <- app_assoc.
      destruct (has_key f k x); reflexivity.
Qed.

Theorem sort_desc_spec (l : list A) :
  Sorted (desc_by f) (sort_desc (lt_by f) l) /\ Permutation (sort_desc (lt_by f) l) l
  /\ forall k, filter (has_key f k) (sort_desc (lt_by f) l) = filter (has_key f k) l.
Proof.
  destruct (fold_insert l [] (SSorted_nil _)) as [H1 [H2 H3]].
  split; [apply StronglySorted_Sorted; exact H1|]. split; [exact H2|].
  intros k. rewrite H3. reflexivity.
Qed.

End ByKey.
End SortProofs.


(** C6: when the [published_at] keys are all aware (as every article's
    is meant to be), or all naive, [take_latest] returns, for a limit
    [limit >= 0], the first [limit] entries of the stable descending sort
    by [published_at], so [min(limit, len)] items, at most [limit]; ties
    keep their input order.  (For a negative [limit] the Python slice
    drops the last [-limit] sorted items.)  Keys that mix naive and aware
    datetimes come only from the naive default of [fetch_articles]; the
    sort then raises [TypeError]. *)
Theorem take_latest_stable_prefix (entries : list article) (limit : Z) :
  mixed_awareness entries = false ->
  exists sorted_entries,
    Sorted (fun x y => published_instant y <= published_instant x) sorted_entries
    /\ Permutation sorted_entries entries
    /\ (forall k, filter (fun e => published_instant e =? k) sorted_entries
                  = filter (fun e => published_instant e =? k) entries)
    /\ take_latest entries limit
       = Ok (if 0 <=? limit then firstn (Z.to_nat limit) sorted_entries
             else firstn (Z.to_nat (Z.of_nat (List.length entries) + limit)) sorted_entries)
    /\ (0 <= limit -> forall r, take_latest entries limit = Ok r ->
         Z.of_nat (List.length r) = Z.min limit (Z.of_nat (List.length entries))).
Proof.
  intros Hmix.
  destruct (SortProofs.sort_desc_spec published_instant entries) as [Hs [Hp Hf]].
  exists (sort_desc (lt_by published_instant) entries).
  split; [exact Hs|]. split; [exact Hp|]. split; [exact Hf|].
  assert (Ht : take_latest entries limit
               = Ok (py_slice_upto (sort_desc (lt_by published_instant) entries) limit)).
  { unfold take_latest. rewrite Hmix. reflexivity. }
  split.
  - rewrite Ht. unfold py_slice_upto. rewrite (Permutation_length Hp). reflexivity.
  - intros Hl r Hr. rewrite Ht in Hr. injection Hr as <-.
    unfold py_slice_upto. replace (0 <=? limit) with true by lia.
    rewrite length_firstn, (Permutation_length Hp). lia.
Qed.

(** A witness: three aware entries at the instants 1, 3, 1 and limit 2. *)
Lemma take_latest_stable_prefix_witness :
  exists sorted_entries,
    Sorted (fun x y => published_instant y <= published_instant x) sorted_entries
    /\ Permutation sorted_entries
         [sample_article "A" "" "a" 1; sample_article "B" "" "b" 3; sample_article "C" "" "c" 1]
    /\ (forall k, filter (fun e => published_instant e =? k) sorted_entries
                  = filter (fun e => published_instant e =? k)
                      [sample_article "A" "" "a" 1; sample_article "B" "" "b" 3;
                       sample_article "C" "" "c" 1])
    /\ take_latest
         [sample_article "A" "" "a" 1; sample_article "B" "" "b" 3; sample_article "C" "" "c" 1] 2
       = Ok (if 0 <=? 2 then firstn (Z.to_nat 2) sorted_entries
             else firstn (Z.to_nat (Z.of_nat 3 + 2)) sorted_entries)
    /\ (0 <= 2 -> forall r, take_latest
         [sample_article "A" "" "a" 1; sample_article "B" "" "b" 3; sample_article "C" "" "c" 1] 2
         = Ok r -> Z.of_nat (List.length r) = Z.min 2 (Z.of_nat 3)).
Proof. apply take_latest_stable_prefix. reflexivity. Defined.

(** ** Which exceptions the scoring engine can raise *)

Module ScoringProofs.


Lemma ok_no_svc {A} (a : A) : no_svc (Ok a).
Proof. intros m. discriminate. Qed.

Lemma bind_no_svc {A B} (m : result A) (k : A -> result B) :
  no_svc m -> (forall x, no_svc (k x)) -> no_svc (bind m k).
Proof.
  intros Hm Hk. destruct m as [a|e]; simpl; [apply Hk|].
  intros n H. injection H as ->. apply (Hm n). reflexivity.
Qed.

Lemma mapM_no_svc {A B} (f : A -> result B) (l : list A) :
  (forall x, no_svc (f x)) -> no_svc (mapM f l).
Proof.
  intros Hf. induction l as [|x l IH]; simpl; [apply ok_no_svc|].
  apply bind_no_svc; [apply Hf|]. intros y. apply bind_no_svc; [exact IH|].
  intros ys. apply ok_no_svc.
Qed.

Lemma get_no_svc (d : pyval) k v : no_svc (Py.get d k v).
Proof. destruct d; intros m; discriminate. Qed.

Lemma iter_no_svc (v : pyval) : no_svc (Py.iter v).
Proof. destruct v; intros m; discriminate. Qed.

Lemma py_float_no_svc (v : pyval) : no_svc (py_float v).
Proof.
  destruct v as [| b | z | f | s | l | kvs]; intros m; simpl; try discriminate.
  - unfold Flt.of_int. destruct (z =? 0); [discriminate|].
    destruct (Flt.binary_round (Z.abs z) 1) as [[? ?]|]; discriminate.
  - destruct (Flt.of_str s); discriminate.
Qed.

Lemma coerce_no_svc (v : pyval) d : no_svc (coerce_score v d).
Proof.
  intros m. unfold coerce_score. pose proof (py_float_no_svc v m) as H.
  destruct (py_float v) as [x|e]; [discriminate|].
  destruct e; try discriminate. exact H.
Qed.

Lemma calc_no_svc sc : no_svc (calculate_weighted_score sc).
Proof.
  unfold calculate_weighted_score.
  repeat (apply bind_no_svc; [apply coerce_no_svc|intro]). apply ok_no_svc.
Qed.

Lemma join_no_svc parts : no_svc (join_space parts).
Proof.
  induction parts as [|p parts IH]; [apply ok_no_svc|].
  destruct p; try (intros m; discriminate).
  destruct parts as [|q rest]; [apply ok_no_svc|].
  change (no_svc (bind (join_space (q :: rest)) (fun r => Ok (s ++ " " ++ r)))).
  apply bind_no_svc; [exact IH|]. intros; apply ok_no_svc.
Qed.

Create HintDb nosvc.
#[local] Hint Resolve ok_no_svc get_no_svc iter_no_svc coerce_no_svc calc_no_svc join_no_svc : nosvc.

Ltac no_svc_chain :=
  repeat (first [ apply ok_no_svc
                | apply bind_no_svc; [solve [auto with nosvc] | intro]
                | progress cbv zeta ]).

Section Lib.
Context (dp : string -> option datetime) (iso disp : datetime -> string).

Lemma heuristic_item_no_svc a : no_svc (heuristic_item dp iso disp a).
Proof. unfold heuristic_item. no_svc_chain. Qed.

Lemma heuristics_no_svc articles : no_svc (analyse_with_heuristics dp iso disp articles).
Proof.
  unfold analyse_with_heuristics. apply bind_no_svc.
  - apply mapM_no_svc. apply heuristic_item_no_svc.
  - intros; apply ok_no_svc.
Qed.

Lemma normalize_no_svc it : no_svc (normalize_item_structure dp disp it).
Proof. unfold normalize_item_structure. no_svc_chain. Qed.

Lemma openai_parsed_no_svc ad available r company_name articles t :
  execute_openai_prompt available r = Ok t -> Json.loads ad t <> Err JSONDecodeError ->
  no_svc (analyse_with_openai dp disp ad available r company_name articles).
Proof.
  intros He Hl. unfold analyse_with_openai. rewrite He. simpl.
  destruct (Json.loads ad t) as [p|e] eqn:Hj.
  2:{ destruct e; try (intros m' Hm; discriminate Hm).
      - exfalso. exact (JsonProofs.loads_no_svc _ _ _ Hj).
      - contradiction. }
  apply bind_no_svc; [apply get_no_svc|intro].
  apply bind_no_svc; [apply iter_no_svc|intro].
  apply bind_no_svc; [apply mapM_no_svc, normalize_no_svc|intro].
  apply bind_no_svc; [apply get_no_svc|intro]. apply ok_no_svc.
Qed.

End Lib.
End ScoringProofs.


(** C1 (as the code behaves): on a non-empty article list, when the oracle
    is unavailable, its request fails, it returns no text, or parsing its
    text raises [JSONDecodeError], [_analyse_articles] returns exactly the
    heuristic result; otherwise (the text is valid JSON, or [json.loads]
    raises [ValueError] or [RecursionError], which are not caught) the
    oracle path's outcome is returned unchanged (a non-object answer
    raises [AttributeError]); and [ESGServiceError] never escapes
    [_analyse_articles]. *)
Theorem analyse_articles_fallback (dp : string -> option datetime) (iso disp : datetime -> string)
    (ad : nat) (available : bool) (r : reply) (company_name : string) (articles : list article) :
  (articles <> [] ->
   (available = false \/ r = ReplyTransportError \/ r = ReplyNoText
    \/ exists t, r = ReplyText t /\ Json.loads ad t = Err JSONDecodeError) ->
   analyse_articles dp iso disp ad available r company_name articles
   = analyse_with_heuristics dp iso disp articles)
  /\ (articles <> [] -> forall t, available = true -> r = ReplyText t ->
      Json.loads ad t <> Err JSONDecodeError ->
      analyse_articles dp iso disp ad available r company_name articles
      = analyse_with_openai dp disp ad available r company_name articles)
  /\ (forall m, analyse_articles dp iso disp ad available r company_name articles
               <> Err (ESGServiceError m)).
Proof.
  split; [|split].
  - intros Hne Hfail. destruct articles as [|a0 rest]; [contradiction|].
    unfold analyse_articles. destruct available; [|reflexivity].
    unfold analyse_with_openai.
    destruct Hfail as [Hf | [Hr | [Hr | [t [Hr Ht]]]]]; [discriminate | subst r..]; simpl;
      try reflexivity.
    rewrite Ht. reflexivity.
  - intros Hne t Ha Hr Hp. subst available r.
    destruct articles as [|a0 rest]; [contradiction|]. unfold analyse_articles.
    pose proof (ScoringProofs.openai_parsed_no_svc dp disp ad true (ReplyText t) company_name
                  (a0 :: rest) t eq_refl Hp) as H.
    destruct (analyse_with_openai dp disp ad true (ReplyText t) company_name (a0 :: rest))
      as [x|[msg| | | | | |]]; try reflexivity.
    exfalso. apply (H msg). reflexivity.
  - intros m. unfold analyse_articles. destruct articles as [|a0 rest]; [discriminate|].
    destruct available; [|apply ScoringProofs.heuristics_no_svc].
    destruct (analyse_with_openai dp disp ad true r company_name (a0 :: rest))
      as [x|[msg| | | | | |]] eqn:E;
      try apply ScoringProofs.heuristics_no_svc; discriminate.
Qed.

(** C1, counterexample: for a non-empty article list, an oracle answer that
    is valid JSON but not an object ([[]]) makes [_analyse_articles] raise
    [AttributeError] ([list] has no [.get]), so no result is returned from
    either path. *)
Lemma analyse_articles_non_object_raises :
  analyse_articles no_parse no_render no_render 100 true (ReplyText "[]") "Acme"
    [sample_article "Oil spill" "" "https://example.com/a" 0]
  = Err AttributeError.
Proof. reflexivity. Qed.

(** A witness: with the oracle unavailable the heuristic result is returned;
    with the answer [{}] the oracle path is taken. *)
Lemma analyse_articles_fallback_witness :
  analyse_articles no_parse no_render no_render 100 false ReplyNoText "Acme"
    [sample_article "Oil spill" "" "u" 0]
  = analyse_with_heuristics no_parse no_render no_render [sample_article "Oil spill" "" "u" 0]
  /\ analyse_articles no_parse no_render no_render 100 true (ReplyText "{}") "Acme"
    [sample_article "Oil spill" "" "u" 0]
  = analyse_with_openai no_parse no_render 100 true (ReplyText "{}") "Acme"
      [sample_article "Oil spill" "" "u" 0].
Proof.
  split.
  - apply (proj1 (analyse_articles_fallback no_parse no_render no_render 100 false ReplyNoText
                    "Acme" [sample_article "Oil spill" "" "u" 0])).
    + discriminate.
    + left; reflexivity.
  - apply (proj1 (proj2 (analyse_articles_fallback no_parse no_render no_render 100 true
                    (ReplyText "{}") "Acme" [sample_article "Oil spill" "" "u" 0]))
             ltac:(discriminate) "{}").
    + reflexivity.
    + reflexivity.
    + vm_compute. discriminate.
Defined.

Module WeightProofs.

Lemma get_dict (kvs : list (string * pyval)) k :
  Py.get (PDict kvs) k PNone = Ok (dict_lookup kvs k).
Proof. reflexivity. Qed.

(** [_coerce_score] maps its own results to themselves. *)
Lemma coerce_idem (v : pyval) x :
  coerce_score v Flt.zero = Ok x -> coerce_score (PFloat x) Flt.zero = Ok x.
Proof.
  unfold coerce_score. destruct (py_float v) as [y|e].
  - intros H. injection H as <-. simpl. f_equal.
    unfold Flt.py_max, Flt.py_min.
    destruct (PrimFloat.ltb y Flt.hundred) eqn:E1.
    + destruct (PrimFloat.ltb Flt.zero y) eqn:E2.
      * rewrite E1, E2. reflexivity.
      * reflexivity.
    + reflexivity.
  - destruct e; try discriminate; intros H; injection H as <-; reflexivity.
Qed.

End WeightProofs.

(** C2: for an item whose [scores] is a dict or falsy, whose axis scores
    coerce (to [E], [S], [G]) and whose [overall] is missing or not a
    number ([float()] raises [TypeError] or [ValueError]), the normalized
    item's overall equals [round((4*E + 3*S + 3*G)/10, 2)], next to the
    coerced axis scores. *)
Theorem normalize_overall_weighted (dp : string -> option datetime) (disp : datetime -> string)
    (kvs skv : list (string * pyval)) (e s g : float) :
  Py.py_or (dict_lookup kvs "scores") (PDict []) = PDict skv ->
  coerce_score (dict_lookup skv "environment") Flt.zero = Ok e ->
  coerce_score (dict_lookup skv "social") Flt.zero = Ok s ->
  coerce_score (dict_lookup skv "governance") Flt.zero = Ok g ->
  py_float (dict_lookup skv "overall") = Err TypeError
  \/ py_float (dict_lookup skv "overall") = Err ValueError ->
  exists itm, normalize_item_structure dp disp (PDict kvs) = Ok itm
    /\ it_scores itm
       = mkScores (PFloat e) (PFloat s) (PFloat g)
           (Flt.round2 ((4 * e + 3 * s + 3 * g) / 10)%float).
Proof.
  intros Hsd He Hs Hg Ho.
  unfold normalize_item_structure.
  rewrite WeightProofs.get_dict; cbn [bind]. rewrite Hsd.
  rewrite WeightProofs.get_dict; cbn [bind]. rewrite He; cbn [bind].
  rewrite WeightProofs.get_dict; cbn [bind]. rewrite Hs; cbn [bind].
  rewrite WeightProofs.get_dict; cbn [bind]. rewrite Hg; cbn [bind].
  rewrite WeightProofs.get_dict; cbn [bind].
  unfold calculate_weighted_score.
  change (dict_lookup [("environment", PFloat e); ("social", PFloat s); ("governance", PFloat g)]
            "environment") with (PFloat e).
  change (dict_lookup [("environment", PFloat e); ("social", PFloat s); ("governance", PFloat g)]
            "social") with (PFloat s).
  change (dict_lookup [("environment", PFloat e); ("social", PFloat s); ("governance", PFloat g)]
            "governance") with (PFloat g).
  rewrite (WeightProofs.coerce_idem _ _ He), (WeightProofs.coerce_idem _ _ Hs),
    (WeightProofs.coerce_idem _ _ Hg); cbn [bind].
  assert (Hw : forall x : float,
    coerce_score (dict_lookup skv "overall") x = Ok x).
  { intros x. unfold coerce_score. destruct Ho as [Ho|Ho]; rewrite Ho; reflexivity. }
  rewrite Hw; cbn [bind].
  eexists. split; [reflexivity|]. cbn [it_scores].
  (* the int weights as floats: 4.0, 3.0, 3.0 and their sum 10 *)
  reflexivity.
Qed.

(** A witness: scores [{environment: 80, social: "50", governance: None}]
    with no [overall] give 47.0. *)
Lemma normalize_overall_weighted_witness :
  exists itm,
    normalize_item_structure no_parse no_render
      (PDict [("scores", PDict [("environment", PInt 80); ("social", PStr "50");
                               ("governance", PNone)])]) = Ok itm
    /\ it_scores itm = mkScores (PFloat 80) (PFloat 50) (PFloat 0)
                         (Flt.round2 ((4 * 80 + 3 * 50 + 3 * 0) / 10)%float).
Proof.
  apply (normalize_overall_weighted no_parse no_render
           [("scores", PDict [("environment", PInt 80); ("social", PStr "50");
                              ("governance", PNone)])]
           [("environment", PInt 80); ("social", PStr "50"); ("governance", PNone)]);
    [reflexivity | vm_compute; reflexivity | vm_compute; reflexivity | reflexivity | left; reflexivity].
Defined.

Example normalize_overall_sample :
  Flt.round2 ((4 * 80 + 3 * 50 + 3 * 0) / 10)%float = 47%float.
Proof. vm_compute. reflexivity. Qed.

Module FetchErrProofs.







End FetchErrProofs.





(** C4, the divergence: a raw item without [published_at] gets
    [datetime.utcnow()], a naive datetime, while a parsed date is made
    aware; an answer mixing both makes [take_latest] compare a naive with an
    aware datetime and [fetch_articles] raises [TypeError]. *)
Theorem fetch_articles_default_naive :
  fetch_articles parse_one 100 true (ReplyText (dquote "{'articles': [{'title': 'x'}]}"))
    1760400000000000 "Acme" 50
  = Ok [mkArticle (PStr "x") (PStr "") PNone PNone (Some (Naive 1760400000000000))
          "openai_web_search"]
  /\ is_aware (Naive 1760400000000000) = false
  /\ fetch_articles parse_one 100 true
       (ReplyText (dquote "{'articles': [{'title': 'x', 'url': 'a', 'published_at': '2024-05-01'}, {'title': 'y', 'url': 'b'}]}"))
       1760400000000000 "Acme" 50
     = Err TypeError.
Proof. split; [|split]; vm_compute; reflexivity. Qed.

(** C8 (as the code behaves): under the heuristic path, an article whose
    joined title and description contains [oil spill] once lowercased gets
    environment 70; social is 70 when a social keyword occurs in that text
    as a substring and 0 otherwise, governance likewise; the overall score
    is [round((4*70 + 3*social + 3*governance)/10, 2)]: 28.0 with neither
    hit, 49.0 with one, 70.0 with both; alone, the article makes the
    analysis's overall score the same value. *)
Theorem heuristic_oil_spill (dp : string -> option datetime) (iso disp : datetime -> string)
    (a : article) (text : string) :
  join_space (filter Py.truthy [a_title a; a_description a]) = Ok text ->
  contains "oil spill" (py_lower text) = true ->
  let hs := existsb (fun kw => contains kw (py_lower text)) SOCIAL_KEYWORDS in
  let hg := existsb (fun kw => contains kw (py_lower text)) GOVERNANCE_KEYWORDS in
  let overall := (if hs then if hg then 70 else 49 else if hg then 49 else 28)%float in
  exists itm, heuristic_item dp iso disp a = Ok itm
    /\ it_scores itm
       = mkScores (PInt 70) (PInt (if hs then 70 else 0)) (PInt (if hg then 70 else 0)) overall
    /\ analyse_with_heuristics dp iso disp [a] = Ok (mkAnalysis [itm] (PFloat overall)).
Proof.
  intros Hj Hoil hs hg overall.
  assert (He : existsb (fun kw => contains kw (py_lower text)) ENVIRONMENTAL_KEYWORDS = true).
  { apply existsb_exists. exists "oil spill". split; [|exact Hoil].
    unfold ENVIRONMENTAL_KEYWORDS. simpl. tauto. }
  unfold analyse_with_heuristics. cbn [mapM].
  unfold heuristic_item. rewrite Hj; cbn [bind].
  unfold detect_esg_aspects. cbv zeta. unfold ESG_KEYWORDS. cbn [filter snd]. rewrite He.
  subst overall hs hg.
  destruct (existsb (fun kw => contains kw (py_lower text)) SOCIAL_KEYWORDS);
    destruct (existsb (fun kw => contains kw (py_lower text)) GOVERNANCE_KEYWORDS);
    (eexists; split; [reflexivity | split; reflexivity]).
Qed.

(** A witness: the title [Oil Spill at refinery] with no description; and
    [Oil spill] with the description [workers strike]. *)
Lemma heuristic_oil_spill_witness :
  (exists itm,
    heuristic_item no_parse no_render no_render (sample_article "Oil Spill at refinery" "" "u" 0)
    = Ok itm
    /\ it_scores itm = mkScores (PInt 70) (PInt 0) (PInt 0) 28%float
    /\ analyse_with_heuristics no_parse no_render no_render
         [sample_article "Oil Spill at refinery" "" "u" 0]
       = Ok (mkAnalysis [itm] (PFloat 28%float)))
  /\ (exists itm,
    heuristic_item no_parse no_render no_render (sample_article "Oil spill" "workers strike" "u" 0)
    = Ok itm
    /\ it_scores itm = mkScores (PInt 70) (PInt 70) (PInt 0) 49%float
    /\ analyse_with_heuristics no_parse no_render no_render
         [sample_article "Oil spill" "workers strike" "u" 0]
       = Ok (mkAnalysis [itm] (PFloat 49%float))).
Proof.
  split.
  - exact (heuristic_oil_spill no_parse no_render no_render
             (sample_article "Oil Spill at refinery" "" "u" 0) "Oil Spill at refinery"
             ltac:(vm_compute; reflexivity) ltac:(vm_compute; reflexivity)).
  - exact (heuristic_oil_spill no_parse no_render no_render
             (sample_article "Oil spill" "workers strike" "u" 0) "Oil spill workers strike"
             ltac:(vm_compute; reflexivity) ltac:(vm_compute; reflexivity)).
Defined.

(** C8, counterexample: [Oil spill] with the description [workers strike]
    also scores social 70 (overall 49.0), and [Oil spill hits the energy
    sector] scores governance 70 ([sec] occurs in [sector]; overall 49.0). *)
Lemma heuristic_oil_spill_other_aspects :
  (let* i := heuristic_item no_parse no_render no_render
               (sample_article "Oil spill" "workers strike" "u" 0) in Ok (it_scores i))
  = Ok (mkScores (PInt 70) (PInt 70) (PInt 0) 49%float)
  /\ (let* i := heuristic_item no_parse no_render no_render
                  (sample_article "Oil spill hits the energy sector" "" "u" 0) in Ok (it_scores i))
  = Ok (mkScores (PInt 70) (PInt 0) (PInt 70) 49%float).
Proof. split; vm_compute; reflexivity. Qed.

(** ** Recent searches *)

Module HistoryProofs.


Lemma subseq_forall {A} (P : A -> Prop) (l l' : list A) :
  subseq l l' -> Forall P l' -> Forall P l.
Proof.
  induction 1 as [| x l l' Hs IH | x l l' Hs IH]; intros HP; [constructor| |];
    inversion HP; subst; auto.
Qed.

Lemma subseq_sorted {A} (R : A -> A -> Prop) (l l' : list A) :
  subseq l l' -> StronglySorted R l' -> StronglySorted R l.
Proof.
  induction 1 as [| x l l' Hs IH | x l l' Hs IH]; intros HR; [constructor| |];
    inversion HR; subst.
  - constructor; [auto|]. eapply subseq_forall; eauto.
  - auto.
Qed.


Lemma recent_loop_spec seen qs count limit :
  0 <= count < limit ->
  let r := recent_loop seen qs count limit in
  subseq r qs /\ NoDup (map row_key r)
  /\ Forall (fun x => ~ In (row_key x) seen) r
  /\ Z.of_nat (List.length r) <= limit - count.
Proof.
  revert seen count. induction qs as [|entry rest IH]; intros seen count Hc; simpl.
  - split; [constructor|]. split; [constructor|]. split; [constructor|]. simpl. lia.
  - destruct (existsb (String.eqb (py_lower (company_name entry))) seen) eqn:Hin.
    + destruct (IH seen count Hc) as [H1 [H2 [H3 H4]]].
      split; [constructor; exact H1|]. auto.
    + assert (Hnot : ~ In (row_key entry) seen).
      { intros Hi. assert (existsb (String.eqb (row_key entry)) seen = true) as Hx.
        { apply existsb_exists. exists (row_key entry). split; [exact Hi|].
          apply String.eqb_refl. }
        unfold row_key in Hx. rewrite Hx in Hin. discriminate. }
      destruct (limit <=? count + 1) eqn:Hl.
      * split; [apply subseq_keep; clear; induction rest; constructor; assumption|].
        split; [constructor; [simpl; tauto | constructor]|].
        split; [constructor; [exact Hnot | constructor]|]. simpl. lia.
      * destruct (IH (py_lower (company_name entry) :: seen) (count + 1)) as [H1 [H2 [H3 H4]]];
          [lia|].
        split; [constructor; exact H1|].
        split.
        { simpl. constructor; [|exact H2].
          intros Hi. apply in_map_iff in Hi as [y [Hy Hyin]].
          rewrite Forall_forall in H3. apply (H3 y Hyin). rewrite Hy. left. reflexivity. }
        split.
        { constructor; [exact Hnot|]. eapply Forall_impl; [|exact H3].
          simpl. intros y Hy Hi. apply Hy. right. exact Hi. }
        simpl List.length. lia.
Qed.

End HistoryProofs.

(** C9, the divergence: [get_recent_searches] checks the limit only after
    appending, so [limit = 0] still returns one entry.  For [limit >= 1]
    the result keeps the query's order (a subsequence of the rows, so
    newest first when the rows are), has no two names equal up to case, and
    has at most [limit] entries. *)
Theorem get_recent_searches_limit_zero :
  get_recent_searches 1 0 [mkRow "Acme" 20; mkRow "Beta" 10] = [mkRow "Acme" 20]
  /\ (forall user_id limit qs, user_id <> 0 -> 1 <= limit ->
      let r := get_recent_searches user_id limit qs in
      subseq r qs
      /\ (StronglySorted (fun x y => searched_at y <= searched_at x) qs ->
          StronglySorted (fun x y => searched_at y <= searched_at x) r)
      /\ NoDup (map row_key r)
      /\ Z.of_nat (List.length r) <= limit).
Proof.
  split; [reflexivity|].
  intros user_id limit qs Hu Hl. cbv zeta. unfold get_recent_searches.
  replace (user_id =? 0) with false by lia.
  destruct (HistoryProofs.recent_loop_spec [] qs 0 limit) as [H1 [H2 [_ H4]]]; [lia|].
  split; [exact H1|]. split; [|split; [exact H2 | lia]].
  intros Hs. eapply HistoryProofs.subseq_sorted; eauto.
Qed.

(** * Further properties of the code *)

(** X1: [safe_parse_datetime] returns [None] for every falsy value and for
    every non-string, and whatever it returns is timezone-aware: a naive
    parse is read as UTC with its wall time kept. *)
Theorem safe_parse_datetime_aware (dp : string -> option datetime) (v : pyval) :
  (Py.truthy v = false -> safe_parse_datetime dp v = None)
  /\ (forall d, safe_parse_datetime dp v = Some d ->
      is_aware d = true
      /\ exists s d0, v = PStr s /\ s <> EmptyString /\ dp s = Some d0
         /\ d = ensure_aware d0 /\ dt_key d = dt_key d0).
Proof.
  split.
  - intros H. unfold safe_parse_datetime. rewrite H. reflexivity.
  - intros d. unfold safe_parse_datetime.
    destruct (Py.truthy v) eqn:Ht; [|discriminate]. simpl.
    destruct v as [| | | | s | |]; try discriminate.
    destruct (dp s) as [d0|] eqn:Hp; [|discriminate]. simpl. intros H. injection H as <-.
    split; [destruct d0; reflexivity|].
    exists s, d0. split; [reflexivity|]. split; [intros ->; discriminate|].
    split; [exact Hp|]. split; [reflexivity | destruct d0; reflexivity].
Qed.

(** A witness: the naive [2024-05-01] is returned as the aware instant. *)
Lemma safe_parse_datetime_aware_witness :
  safe_parse_datetime parse_one (PStr "") = None
  /\ is_aware (Aware 1714521600000000 0) = true.
Proof.
  split.
  - apply (proj1 (safe_parse_datetime_aware parse_one (PStr ""))). reflexivity.
  - apply (proj2 (safe_parse_datetime_aware parse_one (PStr "2024-05-01"))
             (Aware 1714521600000000 0)). reflexivity.
Defined.



Module HeuristicProofs.

Definition base (b : bool) : Z := if b then 70 else 0.

Lemma heuristic_eval (dp : string -> option datetime) (iso disp : datetime -> string)
    (a : article) (text : string) (be bs bg : bool) :
  join_space (filter Py.truthy [a_title a; a_description a]) = Ok text ->
  existsb (fun kw => contains kw (py_lower text)) ENVIRONMENTAL_KEYWORDS = be ->
  existsb (fun kw => contains kw (py_lower text)) SOCIAL_KEYWORDS = bs ->
  existsb (fun kw => contains kw (py_lower text)) GOVERNANCE_KEYWORDS = bg ->
  let date_iso := match a_published_at a with Some d => PStr (isoformat iso d) | None => PNone end in
  heuristic_item dp iso disp a
  = Ok (mkItem (a_title a) (a_description a) date_iso (format_display_date dp disp date_iso)
          (a_source a) (a_url a)
          (mkScores (PInt (base be)) (PInt (base bs)) (PInt (base bg))
             (Flt.round2 ((4 * zf (base be) + 3 * zf (base bs) + 3 * zf (base bg)) / 10)%float))).
Proof.
  intros Hj He Hs Hg date_iso. unfold heuristic_item. rewrite Hj; cbn [bind].
  unfold detect_esg_aspects. cbv zeta. unfold ESG_KEYWORDS. cbn [filter snd].
  rewrite He, Hs, Hg. unfold date_iso.
  destruct be, bs, bg; reflexivity.
Qed.

Lemma join_space_spec (parts : list pyval) :
  (Forall (fun v => exists s, v = PStr s) parts -> exists t, join_space parts = Ok t)
  /\ (forall e, join_space parts = Err e ->
      e = TypeError /\ exists v, In v parts /\ forall s, v <> PStr s).
Proof.
  induction parts as [|p parts [IH1 IH2]].
  - split; [exists ""; reflexivity | intros e H; discriminate].
  - split.
    + intros H. inversion H as [|? ? [s Hs] Hr]; subst.
      destruct parts as [|q rest]; [exists s; reflexivity|].
      destruct (IH1 Hr) as [t Ht]. exists (s ++ " " ++ t)%string.
      change (bind (join_space (q :: rest)) (fun r => Ok (s ++ " " ++ r)%string)
              = Ok (s ++ " " ++ t)%string).
      rewrite Ht. reflexivity.
    + intros e H. destruct p as [| | | | s | |];
        try (injection H as <-; split; [reflexivity | eexists; split; [left; reflexivity | discriminate]]).
      destruct parts as [|q rest]; [discriminate|].
      change (bind (join_space (q :: rest)) (fun r => Ok (s ++ " " ++ r)%string) = Err e) in H.
      destruct (join_space (q :: rest)) as [t|e'] eqn:Hq; [discriminate|].
      injection H as <-. destruct (IH2 e' eq_refl) as [He [v [Hv Hn]]].
      split; [exact He|]. exists v. split; [right; exact Hv | exact Hn].
Qed.

End HeuristicProofs.

(** X3: every item of the heuristic path scores each axis 70 when one of
    that aspect's keywords occurs (as a substring) in the lowercased
    joined title and description, and 0 otherwise; its overall is the
    weighted score of these, so one of 0.0, 21.0, 28.0, 42.0, 49.0, 70.0;
    its date is the ISO form of [published_at]. *)
Theorem heuristic_item_scores (dp : string -> option datetime) (iso disp : datetime -> string)
    (a : article) (itm : item) :
  heuristic_item dp iso disp a = Ok itm ->
  exists text, join_space (filter Py.truthy [a_title a; a_description a]) = Ok text
  /\ let hit kws := existsb (fun kw => contains kw (py_lower text)) kws in
     sc_environment (it_scores itm) = PInt (if hit ENVIRONMENTAL_KEYWORDS then 70 else 0)
     /\ sc_social (it_scores itm) = PInt (if hit SOCIAL_KEYWORDS then 70 else 0)
     /\ sc_governance (it_scores itm) = PInt (if hit GOVERNANCE_KEYWORDS then 70 else 0)
     /\ sc_overall (it_scores itm)
        = Flt.round2 ((4 * (if hit ENVIRONMENTAL_KEYWORDS then 70 else 0)
                       + 3 * (if hit SOCIAL_KEYWORDS then 70 else 0)
                       + 3 * (if hit GOVERNANCE_KEYWORDS then 70 else 0)) / 10)%float
     /\ In (sc_overall (it_scores itm)) [0; 21; 28; 42; 49; 70]%float
     /\ it_date itm = match a_published_at a with
                      | Some d => PStr (isoformat iso d) | None => PNone end.
Proof.
  intros H. destruct (join_space (filter Py.truthy [a_title a; a_description a]))
    as [text|e] eqn:Hj.
  - exists text. split; [reflexivity|]. cbv zeta.
    destruct (existsb (fun kw => contains kw (py_lower text)) ENVIRONMENTAL_KEYWORDS) eqn:He,
      (existsb (fun kw => contains kw (py_lower text)) SOCIAL_KEYWORDS) eqn:Hs,
      (existsb (fun kw => contains kw (py_lower text)) GOVERNANCE_KEYWORDS) eqn:Hg;
      rewrite (HeuristicProofs.heuristic_eval dp iso disp a text _ _ _ Hj He Hs Hg) in H;
      injection H as <-;
      (split; [reflexivity|]); (split; [reflexivity|]); (split; [reflexivity|]);
      (split; [reflexivity|]); (split; [vm_compute; tauto | reflexivity]).
  - unfold heuristic_item in H. rewrite Hj in H. discriminate.
Qed.

(** A witness: a title mentioning a strike at a refinery's emissions site. *)
Lemma heuristic_item_scores_witness :
  exists text, join_space (filter Py.truthy [PStr "Strike over emissions"; PStr ""]) = Ok text
  /\ let hit kws := existsb (fun kw => contains kw (py_lower text)) kws in
     sc_environment (it_scores (mkItem (PStr "Strike over emissions") (PStr "") (PStr "")
        (PStr "N/A") PNone (PStr "u") (mkScores (PInt 70) (PInt 70) (PInt 0) 49%float)))
       = PInt (if hit ENVIRONMENTAL_KEYWORDS then 70 else 0)
     /\ sc_social (it_scores (mkItem (PStr "Strike over emissions") (PStr "") (PStr "")
        (PStr "N/A") PNone (PStr "u") (mkScores (PInt 70) (PInt 70) (PInt 0) 49%float)))
       = PInt (if hit SOCIAL_KEYWORDS then 70 else 0)
     /\ sc_governance (it_scores (mkItem (PStr "Strike over emissions") (PStr "") (PStr "")
        (PStr "N/A") PNone (PStr "u") (mkScores (PInt 70) (PInt 70) (PInt 0) 49%float)))
       = PInt (if hit GOVERNANCE_KEYWORDS then 70 else 0)
     /\ sc_overall (it_scores (mkItem (PStr "Strike over emissions") (PStr "") (PStr "")
        (PStr "N/A") PNone (PStr "u") (mkScores (PInt 70) (PInt 70) (PInt 0) 49%float)))
        = Flt.round2 ((4 * (if hit ENVIRONMENTAL_KEYWORDS then 70 else 0)
                       + 3 * (if hit SOCIAL_KEYWORDS then 70 else 0)
                       + 3 * (if hit GOVERNANCE_KEYWORDS then 70 else 0)) / 10)%float
     /\ In (sc_overall (it_scores (mkItem (PStr "Strike over emissions") (PStr "") (PStr "")
        (PStr "N/A") PNone (PStr "u") (mkScores (PInt 70) (PInt 70) (PInt 0) 49%float))))
          [0; 21; 28; 42; 49; 70]%float
     /\ it_date (mkItem (PStr "Strike over emissions") (PStr "") (PStr "")
        (PStr "N/A") PNone (PStr "u") (mkScores (PInt 70) (PInt 70) (PInt 0) 49%float))
        = match Some (Aware 0 0) with
          | Some d => PStr (isoformat no_render d) | None => PNone end.
Proof.
  apply (heuristic_item_scores no_parse no_render no_render
           (mkArticle (PStr "Strike over emissions") (PStr "") (PStr "u") PNone
              (Some (Aware 0 0)) "openai_web_search")).
  vm_compute. reflexivity.
Defined.

Module HeuristicListProofs.

Lemma insert_desc_perm {A} (lt : A -> A -> bool) (x : A) (l : list A) :
  Permutation (insert_desc lt x l) (x :: l).
Proof.
  induction l as [|y l IH]; simpl; [reflexivity|].
  destruct (lt y x); [reflexivity|]. rewrite IH. apply perm_swap.
Qed.

Lemma sort_desc_perm {A} (lt : A -> A -> bool) (l : list A) : Permutation (sort_desc lt l) l.
Proof.
  unfold sort_desc.
  assert (H : forall acc, Permutation (fold_left (fun acc x => insert_desc lt x acc) l acc)
                                      (acc ++ l)).
  { induction l as [|x l IH]; intros acc; simpl; [rewrite app_nil_r; reflexivity|].
    rewrite IH, insert_desc_perm. apply Permutation_middle. }
  apply H.
Qed.

Lemma mapM_err {A B} (f : A -> result B) (l : list A) e :
  mapM f l = Err e -> exists x, In x l /\ f x = Err e.
Proof.
  induction l as [|x l IH]; simpl; [discriminate|].
  destruct (f x) as [y|e'] eqn:Hx; simpl.
  - destruct (mapM f l) as [ys|e''] eqn:Hl; simpl; [discriminate|].
    intros H. injection H as <-. destruct (IH eq_refl) as [z [Hz Hfz]].
    exists z. split; [right; exact Hz | exact Hfz].
  - intros H. injection H as <-. exists x. split; [left; reflexivity | exact Hx].
Qed.

Lemma mapM_ok {A B} (f : A -> result B) (l : list A) :
  Forall (fun x => exists y, f x = Ok y) l -> exists ys, mapM f l = Ok ys.
Proof.
  induction 1 as [|x l [y Hy] _ [ys Hys]]; [exists []; reflexivity|].
  exists (y :: ys). simpl. rewrite Hy. simpl. rewrite Hys. reflexivity.
Qed.

Lemma heuristic_item_ok dp iso disp a :
  Forall (fun v => exists s, v = PStr s) (filter Py.truthy [a_title a; a_description a]) ->
  exists itm, heuristic_item dp iso disp a = Ok itm.
Proof.
  intros H. destruct (proj1 (HeuristicProofs.join_space_spec _) H) as [t Ht].
  eexists. apply (HeuristicProofs.heuristic_eval dp iso disp a t _ _ _ Ht eq_refl eq_refl eq_refl).
Qed.

Lemma join_ok_strings (parts : list pyval) (t : string) :
  join_space parts = Ok t -> Forall (fun v => exists s, v = PStr s) parts.
Proof.
  revert t. induction parts as [|p parts IH]; intros t H; [constructor|].
  destruct p as [| | | | s | |]; try (destruct parts; discriminate H).
  constructor; [eauto|]. destruct parts as [|q rest]; [constructor|].
  change (bind (join_space (q :: rest)) (fun r => Ok (s ++ " " ++ r)%string) = Ok t) in H.
  destruct (join_space (q :: rest)) as [t'|e] eqn:Hq; [|discriminate].
  exact (IH _ eq_refl).
Qed.

Lemma mapM_err_in {A B} (f : A -> result B) (l : list A) x e0 :
  In x l -> f x = Err e0 -> exists e, mapM f l = Err e.
Proof.
  intros Hx Hf. induction l as [|y l IH]; [destruct Hx|]. simpl.
  destruct (f y) as [z|e'] eqn:Hy; simpl; [|eauto].
  destruct Hx as [<-|Hx]; [congruence|].
  destruct (IH Hx) as [e Hl]. rewrite Hl. simpl. eauto.
Qed.

Lemma heuristic_item_err dp iso disp a e :
  heuristic_item dp iso disp a = Err e ->
  e = TypeError /\ exists v, In v (filter Py.truthy [a_title a; a_description a])
                      /\ forall s, v <> PStr s.
Proof.
  intros H. destruct (join_space (filter Py.truthy [a_title a; a_description a])) as [t|e'] eqn:Hj.
  - rewrite (HeuristicProofs.heuristic_eval dp iso disp a t _ _ _ Hj eq_refl eq_refl eq_refl)
      in H. discriminate.
  - unfold heuristic_item in H. rewrite Hj in H. injection H as <-.
    apply (proj2 (HeuristicProofs.join_space_spec _)). exact Hj.
Qed.

End HeuristicListProofs.

(** X4: the heuristic path scores every article: when each article's
    truthy title and description are strings, [_analyse_with_heuristics]
    returns one item per article (the per-article items reordered) and the
    overall score computed from them; when some article has a truthy title
    or description that is not a string, it raises [TypeError] (from
    [' '.join]); and [TypeError] from such an article is the only exception
    it raises. *)
Theorem analyse_with_heuristics_items (dp : string -> option datetime)
    (iso disp : datetime -> string) (articles : list article) :
  (Forall (fun a => Forall (fun v => exists s, v = PStr s)
                      (filter Py.truthy [a_title a; a_description a])) articles ->
   exists items an,
     mapM (heuristic_item dp iso disp) articles = Ok items
     /\ analyse_with_heuristics dp iso disp articles = Ok an
     /\ Permutation (an_items an) items
     /\ List.length (an_items an) = List.length articles
     /\ an_overall_score an = PFloat (compute_overall_score (an_items an)))
  /\ (forall e, analyse_with_heuristics dp iso disp articles = Err e ->
      e = TypeError
      /\ exists a v, In a articles /\ In v (filter Py.truthy [a_title a; a_description a])
                     /\ forall s, v <> PStr s)
  /\ (forall a v, In a articles -> In v (filter Py.truthy [a_title a; a_description a]) ->
      (forall s, v <> PStr s) ->
      analyse_with_heuristics dp iso disp articles = Err TypeError).
Proof.
  assert (Herr : forall e, analyse_with_heuristics dp iso disp articles = Err e ->
      e = TypeError
      /\ exists a v, In a articles /\ In v (filter Py.truthy [a_title a; a_description a])
                     /\ forall s, v <> PStr s).
  { intros e H. unfold analyse_with_heuristics in H.
    destruct (mapM (heuristic_item dp iso disp) articles) as [items|e'] eqn:Hm; [discriminate|].
    injection H as <-. destruct (HeuristicListProofs.mapM_err _ _ _ Hm) as [a [Ha He]].
    destruct (HeuristicListProofs.heuristic_item_err _ _ _ _ _ He) as [Ht [v [Hv Hs]]].
    split; [exact Ht|]. exists a, v. auto. }
  split; [|split; [exact Herr|]].
  2:{ intros a v Ha Hv Hns.
      assert (Hx : exists e0, heuristic_item dp iso disp a = Err e0).
      { unfold heuristic_item.
        destruct (join_space (filter Py.truthy [a_title a; a_description a])) as [t|e0] eqn:Hj;
          [|exists e0; reflexivity].
        exfalso. pose proof (HeuristicListProofs.join_ok_strings _ _ Hj) as Hf.
        rewrite Forall_forall in Hf. destruct (Hf v Hv) as [s Hs]. exact (Hns s Hs). }
      destruct Hx as [e0 Hx].
      destruct (HeuristicListProofs.mapM_err_in _ _ _ _ Ha Hx) as [e Hm].
      assert (H : analyse_with_heuristics dp iso disp articles = Err e).
      { unfold analyse_with_heuristics. rewrite Hm. reflexivity. }
      rewrite H. f_equal. exact (proj1 (Herr e H)). }
  - intros H.
    destruct (HeuristicListProofs.mapM_ok (heuristic_item dp iso disp) articles) as [items Hi].
    { eapply Forall_impl; [|exact H]. intros a Ha. apply HeuristicListProofs.heuristic_item_ok.
      exact Ha. }
    exists items. eexists. split; [exact Hi|].
    split; [unfold analyse_with_heuristics; rewrite Hi; reflexivity|]. cbn [an_items an_overall_score].
    split; [apply HeuristicListProofs.sort_desc_perm|].
    split; [|reflexivity].
    unfold sort_items_by_score.
    rewrite (Permutation_length (HeuristicListProofs.sort_desc_perm _ items)).
    clear H Herr. revert items Hi. induction articles as [|a rest IH]; intros items Hi.
    + injection Hi as <-. reflexivity.
    + simpl in Hi. destruct (heuristic_item dp iso disp a) as [y|e]; [|discriminate].
      simpl in Hi. destruct (mapM (heuristic_item dp iso disp) rest) as [ys|e] eqn:Hr;
        [|discriminate]. injection Hi as <-. simpl. f_equal. apply IH. reflexivity.
Qed.

(** A witness: two articles with string titles. *)
Lemma analyse_with_heuristics_items_witness :
  exists items an,
    mapM (heuristic_item no_parse no_render no_render)
      [sample_article "Oil spill" "" "a" 1; sample_article "Board fraud" "" "b" 2] = Ok items
    /\ analyse_with_heuristics no_parse no_render no_render
         [sample_article "Oil spill" "" "a" 1; sample_article "Board fraud" "" "b" 2] = Ok an
    /\ Permutation (an_items an) items
    /\ List.length (an_items an)
       = List.length [sample_article "Oil spill" "" "a" 1; sample_article "Board fraud" "" "b" 2]
    /\ an_overall_score an = PFloat (compute_overall_score (an_items an)).
Proof.
  apply (proj1 (analyse_with_heuristics_items no_parse no_render no_render
                  [sample_article "Oil spill" "" "a" 1; sample_article "Board fraud" "" "b" 2])).
  repeat constructor; eexists; reflexivity.
Defined.

Module PayloadProofs.

Lemma app_assoc_s (a b c : string) : ((a ++ b) ++ c = a ++ b ++ c)%string.
Proof. induction a as [|x a IH]; simpl; [reflexivity | rewrite IH; reflexivity]. Qed.

Lemma app_nil_s (a : string) : (a ++ "")%string = a.
Proof. induction a as [|x a IH]; simpl; [reflexivity | rewrite IH; reflexivity]. Qed.

Lemma infix_refl s : infix s s.
Proof. exists "", "". simpl. rewrite app_nil_s. reflexivity. Qed.

Lemma infix_trans a b c : infix a b -> infix b c -> infix a c.
Proof.
  intros [p1 [q1 H1]] [p2 [q2 H2]]. subst b c.
  exists (p2 ++ p1)%string, (q1 ++ q2)%string.
  rewrite !app_assoc_s. reflexivity.
Qed.

Lemma infix_cons a c s : infix a s -> infix a (String c s).
Proof. intros [p [q H]]. exists (String c p), q. rewrite H. reflexivity. Qed.

Lemma infix_app_r a s t : infix a t -> infix a (s ++ t)%string.
Proof.
  intros [p [q H]]. exists (s ++ p)%string, q. rewrite H, app_assoc_s. reflexivity.
Qed.

Lemma infix_prefix a t : infix a (a ++ t)%string.
Proof. exists "", t. reflexivity. Qed.

Lemma skip_space_infix s : infix (skip_space s) s.
Proof.
  induction s as [|c r IH]; simpl; [apply infix_refl|].
  destruct (is_space c); [apply infix_cons, IH | apply infix_refl].
Qed.

Lemma substring_prefix (m : nat) (s : string) : exists post, s = (substring 0 m s ++ post)%string.
Proof.
  revert s. induction m as [|m IH]; intros s; [exists s; destruct s; reflexivity|].
  destruct s as [|c r]; [exists ""; reflexivity|].
  destruct (IH r) as [post Hp]. exists post. simpl. rewrite <- Hp. reflexivity.
Qed.

Lemma substring_infix (n m : nat) (s : string) : infix (substring n m s) s.
Proof.
  revert s. induction n as [|n IH]; intros s.
  - destruct (substring_prefix m s) as [post Hp]. exists "", post. exact Hp.
  - destruct s as [|c r].
    + exists "", "". destruct m; reflexivity.
    + apply infix_cons. apply IH.
Qed.

Lemma close_fence_infix s rest : close_fence s = Some rest -> infix rest s.
Proof.
  unfold close_fence. intros H. apply (infix_trans _ (skip_space s)); [|apply skip_space_infix].
  destruct (skip_space s) as [|c1 r]; [discriminate|].
  destruct c1 as [[] [] [] [] [] [] [] []]; try discriminate.
  destruct r as [|c2 r]; [discriminate|].
  destruct c2 as [[] [] [] [] [] [] [] []]; try discriminate.
  destruct r as [|c3 r]; [discriminate|].
  destruct c3 as [[] [] [] [] [] [] [] []]; try discriminate.
  injection H as <-. do 3 apply infix_cons. apply infix_refl.
Qed.

Lemma lazy_group_infix s acc g rest :
  lazy_group s acc = Some (g, rest) ->
  exists mid post, g = (acc ++ mid)%string /\ s = (mid ++ post)%string /\ infix rest post.
Proof.
  revert acc. induction s as [|c r IH]; intros acc; simpl; [discriminate|].
  intros H.
  assert (Hrec : lazy_group r (acc ++ String c "") = Some (g, rest) ->
            exists mid post, g = (acc ++ mid)%string /\ String c r = (mid ++ post)%string
                             /\ infix rest post).
  { intros Hr. destruct (IH _ Hr) as [mid [post [Hg [Hs Hi]]]].
    exists (String c mid), post. split; [rewrite Hg, app_assoc_s; reflexivity|].
    split; [rewrite Hs; reflexivity | exact Hi]. }
  destruct (Ascii.eqb c "}"%char); [|exact (Hrec H)].
  destruct (close_fence r) as [rest'|] eqn:Hc; [|exact (Hrec H)].
  injection H as <- <-. exists (String c ""), r.
  split; [reflexivity|]. split; [reflexivity|]. apply close_fence_infix. exact Hc.
Qed.

Lemma json_prefix_infix r : infix (if String.prefix "json" r then substring 4 (String.length r) r else r) r.
Proof. destruct (String.prefix "json" r); [apply substring_infix | apply infix_refl]. Qed.

Lemma fence_at_infix s g rest :
  fence_at s = Some (g, rest) -> infix g s /\ infix rest s.
Proof.
  unfold fence_at. intros H.
  destruct s as [|c1 r]; [discriminate|].
  destruct c1 as [[] [] [] [] [] [] [] []]; try discriminate.
  destruct r as [|c2 r]; [discriminate|].
  destruct c2 as [[] [] [] [] [] [] [] []]; try discriminate.
  destruct r as [|c3 r]; [discriminate|].
  destruct c3 as [[] [] [] [] [] [] [] []]; try discriminate.
  cbv zeta in H.
  pose proof (json_prefix_infix r) as Hj.
  set (r1 := if String.prefix "json" r then substring 4 (String.length r) r else r) in *.
  pose proof (skip_space_infix r1) as Hk.
  destruct (skip_space r1) as [|b r2] eqn:Hs; [discriminate|].
  destruct b as [[] [] [] [] [] [] [] []]; try discriminate.
  destruct (lazy_group_infix _ _ _ _ H) as [mid [post [Hg [Hr2 Hi]]]].
  assert (Hin : infix (String "{" r2) (String "`" (String "`" (String "`" r)))).
  { do 3 apply infix_cons. eapply infix_trans; [exact Hk | exact Hj]. }
  split.
  - eapply infix_trans; [|exact Hin]. rewrite Hg, Hr2. exists "", post. reflexivity.
  - eapply infix_trans; [exact Hi|]. eapply infix_trans; [|exact Hin].
    rewrite Hr2. apply infix_cons, infix_app_r, infix_refl.
Qed.

Lemma findall_infix fuel s b : In b (findall_fenced fuel s) -> infix b s.
Proof.
  revert s. induction fuel as [|fuel IH]; intros s; simpl; [intros []|].
  destruct s as [|c r]; [intros []|].
  destruct (fence_at (String c r)) as [[g rest]|] eqn:Hf.
  - destruct (fence_at_infix _ _ _ Hf) as [Hg Hr]. intros [<-|Hb]; [exact Hg|].
    eapply infix_trans; [apply IH; exact Hb | exact Hr].
  - intros Hb. apply infix_cons, IH, Hb.
Qed.

Lemma first_parse_in depth blocks :
  (forall v, first_parse depth blocks = Ok (Some v) ->
     exists b, In b blocks /\ Json.loads depth b = Ok v)
  /\ (forall e, first_parse depth blocks = Err e ->
     exists b, In b blocks /\ Json.loads depth b = Err e).
Proof.
  induction blocks as [|b bs IH]; simpl; [split; discriminate|].
  destruct (Json.loads depth b) as [v'|e'] eqn:Hb.
  - split; [|discriminate]. intros v H. injection H as <-. exists b. auto.
  - destruct e';
      try (split; [discriminate | intros e H; injection H as <-; exists b; auto]).
    destruct IH as [IH1 IH2]. split.
    + intros v H. destruct (IH1 v H) as [b' [Hi Hl]]. exists b'. auto.
    + intros e H. destruct (IH2 e H) as [b' [Hi Hl]]. exists b'. auto.
Qed.

End PayloadProofs.

(** X5: [_parse_articles_payload] never invents a payload: whatever it
    returns is [json.loads] of a contiguous piece of the stripped response
    (the whole text, a fenced block's group, or the first-to-last brace
    slice).  It raises only what [json.loads] raises ([JSONDecodeError],
    [ValueError], [RecursionError]); any exception other than
    [JSONDecodeError] is one that [json.loads] raised on such a piece. *)
Theorem parse_articles_payload_sound (depth : nat) (raw_text : string) :
  (forall v, parse_articles_payload depth raw_text = Ok v ->
     exists sub, infix sub (py_strip raw_text) /\ Json.loads depth sub = Ok v)
  /\ (forall e, parse_articles_payload depth raw_text = Err e ->
      JsonProofs.json_exc e
      /\ (e <> JSONDecodeError ->
          exists sub, infix sub (py_strip raw_text) /\ Json.loads depth sub = Err e)).
Proof.
  split.
  - unfold parse_articles_payload. cbv zeta. intros v.
    destruct (Json.loads depth (py_strip raw_text)) as [v'|e0] eqn:H0.
    { intros H. injection H as <-. exists (py_strip raw_text).
      split; [apply PayloadProofs.infix_refl | exact H0]. }
    destruct e0; try discriminate.
    destruct (first_parse depth (findall_fenced _ (py_strip raw_text))) as [[v'|]|e1] eqn:H1;
      simpl; [| |discriminate].
    { intros H. injection H as <-.
      destruct (proj1 (PayloadProofs.first_parse_in _ _) _ H1) as [b [Hb Hl]].
      exists b. split; [eapply PayloadProofs.findall_infix; exact Hb | exact Hl]. }
    destruct (_ && _); [|discriminate].
    intros H. eexists. split; [apply PayloadProofs.substring_infix | exact H].
  - intros e H. split; [exact (JsonProofs.payload_exc _ _ _ H)|]. intros Hne.
    revert H. unfold parse_articles_payload. cbv zeta.
    destruct (Json.loads depth (py_strip raw_text)) as [v'|e0] eqn:H0; [discriminate|].
    destruct e0;
      try (intros H; injection H as <-; exists (py_strip raw_text);
           split; [apply PayloadProofs.infix_refl | exact H0]).
    destruct (first_parse depth (findall_fenced _ (py_strip raw_text))) as [[v'|]|e1] eqn:H1;
      simpl; [discriminate| |].
    + destruct (_ && _); [|intros H; injection H as <-; contradiction].
      intros H. eexists. split; [apply PayloadProofs.substring_infix | exact H].
    + intros H. injection H as <-.
      destruct (proj2 (PayloadProofs.first_parse_in _ _) _ H1) as [b [Hb Hl]].
      exists b. split; [eapply PayloadProofs.findall_infix; exact Hb | exact Hl].
Qed.

(** A witness: a fenced block inside prose, and a block nested past a
    recursion budget of 2. *)
Lemma parse_articles_payload_sound_witness :
  (exists sub, infix sub (py_strip (dquote "See ```json {'articles': []} ``` done"))
    /\ Json.loads 100 sub = Ok (PDict [("articles", PList [])]))
  /\ (JsonProofs.json_exc RecursionError
      /\ (RecursionError <> JSONDecodeError ->
          exists sub, infix sub (py_strip (dquote "``` {'a': [[1]]} ``` {}"))
            /\ Json.loads 2 sub = Err RecursionError)).
Proof.
  split.
  - apply (proj1 (parse_articles_payload_sound 100
                    (dquote "See ```json {'articles': []} ``` done"))).
    vm_compute. reflexivity.
  - apply (proj2 (parse_articles_payload_sound 2 (dquote "``` {'a': [[1]]} ``` {}"))).
    vm_compute. reflexivity.
Defined.

Module FetchProofs.
Local Open Scope list_scope.

Lemma mapM_forall {A B} (f : A -> result B) (P : B -> Prop) (l : list A) ys :
  (forall x y, f x = Ok y -> P y) -> mapM f l = Ok ys -> Forall P ys.
Proof.
  intros Hf. revert ys. induction l as [|x l IH]; intros ys; simpl.
  - intros H. injection H as <-. constructor.
  - destruct (f x) as [y|e] eqn:Hx; simpl; [|discriminate].
    destruct (mapM f l) as [zs|e] eqn:Hl; simpl; [|discriminate].
    intros H. injection H as <-. constructor; [eapply Hf; exact Hx | apply IH; reflexivity].
Qed.

Lemma mk_article_shape dp now item a :
  mk_article dp now item = Ok a ->
  a_source_type a = "openai_web_search" /\ exists d, a_published_at a = Some d.
Proof.
  unfold mk_article. intros H.
  destruct (Py.get item "published_at" PNone); simpl in H; [|discriminate].
  destruct (Py.get item "title" (PStr "")); simpl in H; [|discriminate].
  destruct (Py.get item "description" (PStr "")); simpl in H; [|discriminate].
  destruct (Py.get item "url" PNone); simpl in H; [|discriminate].
  destruct (Py.get item "source" PNone); simpl in H; [|discriminate].
  injection H as <-. split; [reflexivity | eexists; reflexivity].
Qed.

Lemma dedup_loop_spec (seen : list pyval) (l kept : list article) :
  dedup_loop seen l = Ok kept ->
  incl kept l /\ Forall (fun a => Py.truthy (unique_key a) = true) kept
  /\ NoDup (str_keys kept) /\ (forall u, In u (str_keys kept) -> ~ In (PStr u) seen).
Proof.
  revert seen kept. induction l as [|e rest IH]; intros seen kept; simpl.
  - intros H. injection H as <-. split; [intros x []|]. split; [constructor|].
    split; [constructor | intros u []].
  - destruct (Py.truthy (unique_key e)) eqn:Ht; simpl.
    2: { intros H. destruct (IH _ _ H) as [H1 [H2 [H3 H4]]].
         split; [intros x Hx; right; apply H1, Hx|]. auto. }
    destruct (hashable (unique_key e)); simpl; [|discriminate].
    destruct (existsb (set_key_eq (unique_key e)) seen) eqn:Hs.
    { intros H. destruct (IH _ _ H) as [H1 [H2 [H3 H4]]].
      split; [intros x Hx; right; apply H1, Hx|]. auto. }
    destruct (dedup_loop (unique_key e :: seen) rest) as [k|err] eqn:Hr; simpl; [|discriminate].
    intros H. injection H as <-. destruct (IH _ _ Hr) as [H1 [H2 [H3 H4]]].
    split.
    { intros x [<-|Hx]; [left; reflexivity | right; apply H1, Hx]. }
    split; [constructor; assumption|].
    unfold str_keys. cbn [flat_map]. fold (str_keys k).
    split.
    + destruct (unique_key e) as [| | | | u | |] eqn:Hk; try exact H3.
      simpl. constructor; [|exact H3].
      intros Hin. apply (H4 u Hin). left. reflexivity.
    + intros u Hu. apply in_app_or in Hu as [Hu|Hu].
      * destruct (unique_key e) as [| | | | w | |]; try contradiction.
        destruct Hu as [<-|[]]. rewrite <- DedupProofs.existsb_str_in, Hs. discriminate.
      * intros Hin. apply (H4 u Hu). right. exact Hin.
Qed.

Lemma str_keys_app l1 l2 : str_keys (l1 ++ l2) = str_keys l1 ++ str_keys l2.
Proof. unfold str_keys. apply flat_map_app. Qed.

Lemma str_keys_perm l1 l2 : Permutation l1 l2 -> Permutation (str_keys l1) (str_keys l2).
Proof.
  induction 1; unfold str_keys in *; simpl.
  - constructor.
  - apply Permutation_app_head. assumption.
  - rewrite !app_assoc. apply Permutation_app_tail. apply Permutation_app_comm.
  - eapply perm_trans; eassumption.
Qed.

End FetchProofs.

(** X6: for a non-negative [limit], every list [fetch_articles] returns has
    at most [limit] articles, each with a truthy identity key (url, else
    title), a [published_at] and the source type [openai_web_search], and
    no two articles share a string identity key. *)
Theorem fetch_articles_output (dp : string -> option datetime) (fd : nat) (configured : bool) (r : reply)
    (now : Z) (company_name : string) (limit : Z) (res : list article) :
  0 <= limit -> fetch_articles dp fd configured r now company_name limit = Ok res ->
  Z.of_nat (List.length res) <= limit
  /\ Forall (fun a => Py.truthy (unique_key a) = true
                      /\ a_source_type a = "openai_web_search"
                      /\ exists d, a_published_at a = Some d) res
  /\ NoDup (str_keys res).
Proof.
  intros Hl H. unfold fetch_articles in H.
  destruct configured; [|injection H as <-; simpl; split; [lia | split; constructor]].
  destruct r as [| |text]; try (injection H as <-; simpl; split; [lia | split; constructor]).
  destruct (parse_articles_payload fd text) as [payload|e]; [|].
  2: { destruct e; try discriminate; injection H as <-; simpl; split; [lia | split; constructor]. }
  simpl in H. destruct (Py.get payload "articles" (PList [])) as [av|e]; simpl in H; [|discriminate].
  destruct (Py.iter av) as [raw|e]; simpl in H; [|discriminate].
  destruct (mapM (mk_article dp now) raw) as [articles|e] eqn:Hm; simpl in H; [|discriminate].
  destruct (deduplicate_articles articles) as [uniq|e] eqn:Hd; simpl in H; [|discriminate].
  pose proof (FetchProofs.mapM_forall _ _ _ _ (fun x y => FetchProofs.mk_article_shape dp now x y) Hm)
    as Hshape.
  destruct (FetchProofs.dedup_loop_spec [] articles uniq Hd) as [Hinc [Htr [Hnd _]]].
  unfold take_latest in H. destruct (mixed_awareness uniq); [discriminate|].
  injection H as <-. unfold py_slice_upto. replace (0 <=? limit) with true by lia.
  set (sorted := sort_desc _ uniq).
  assert (Hp : Permutation sorted uniq) by apply HeuristicListProofs.sort_desc_perm.
  split; [rewrite length_firstn, (Permutation_length Hp); lia|].
  split.
  - apply Forall_forall. intros a Ha.
    assert (Ha' : In a sorted).
    { rewrite <- (firstn_skipn (Z.to_nat limit) sorted). apply in_or_app. left. exact Ha. }
    apply (Permutation_in _ Hp) in Ha'. clear Ha. rename Ha' into Ha.
    split; [rewrite Forall_forall in Htr; apply Htr, Ha|].
    rewrite Forall_forall in Hshape. apply Hshape, Hinc, Ha.
  - assert (Hs : NoDup (str_keys sorted)).
    { eapply Permutation_NoDup; [apply Permutation_sym, FetchProofs.str_keys_perm, Hp | exact Hnd]. }
    rewrite <- (firstn_skipn (Z.to_nat limit) sorted), FetchProofs.str_keys_app in Hs.
    eapply NoDup_app_remove_r. exact Hs.
Qed.

(** A witness: an answer with two articles sharing a url, limit 5. *)
Lemma fetch_articles_output_witness :
  let r := ReplyText (dquote "{'articles': [{'title': 'A', 'url': 'u'}, {'title': 'B', 'url': 'u'}]}") in
  let res := [mkArticle (PStr "A") (PStr "") (PStr "u") PNone (Some (Naive 7)) "openai_web_search"] in
  fetch_articles no_parse 100 true r 7 "Acme" 5 = Ok res
  /\ (Z.of_nat (List.length res) <= 5
  /\ Forall (fun a => Py.truthy (unique_key a) = true
                      /\ a_source_type a = "openai_web_search"
                      /\ exists d, a_published_at a = Some d) res
  /\ NoDup (str_keys res)).
Proof.
  intros r res. split; [vm_compute; reflexivity|].
  apply (fetch_articles_output no_parse 100 true r 7 "Acme" 5 res); [lia | vm_compute; reflexivity].
Defined.

(** ** The profile cache *)

Module CacheProofs.

Lemma normalize_idem (s : string) :
  normalize_company_name (normalize_company_name s) = normalize_company_name s.
Proof.
  destruct (NormalizeProofs.normalize_shape s) as [Hs [He Ha]].
  unfold normalize_company_name at 1. unfold py_strip.
  rewrite (NormalizeProofs.lstrip_id _ Hs), (NormalizeProofs.rstrip_id _ He).
  apply NormalizeProofs.sub_ws_id; [apply NormalizeProofs.sub_ws_blank | exact Ha | discriminate].
Qed.

Lemma key_of_normalized (name name' : string) :
  normalize_company_name (py_lower name) = normalize_company_name (py_lower name') ->
  make_cache_key (normalize_company_name name) = make_cache_key (normalize_company_name name').
Proof.
  intros H. unfold make_cache_key. rewrite !normalize_idem, !NormalizeProofs.lower_normalize, H.
  reflexivity.
Qed.



Lemma lookup_delete_same (c : list (string * cache_entry)) (k : string) :
  cache_lookup (cache_delete c k) k = None.
Proof.
  unfold cache_delete. induction c as [|[k0 e0] r IH]; simpl; [reflexivity|].
  destruct (String.eqb k0 k) eqn:E; simpl; [exact IH|].
  rewrite String.eqb_sym, E. exact IH.
Qed.

Lemma delete_absent (c : list (string * cache_entry)) (k : string) :
  cache_lookup c k = None -> cache_delete c k = c.
Proof.
  unfold cache_delete. induction c as [|[k0 e0] r IH]; simpl; [reflexivity|].
  destruct (String.eqb k k0) eqn:E; [discriminate|].
  rewrite String.eqb_sym, E. simpl. intros H. rewrite (IH H). reflexivity.
Qed.



Lemma set_shape (c : list (string * cache_entry)) (k : string) (v : profile) (t now : Z) :
  exists c0, cache_set c k v t now
             = (k, mkEntry v (if t =? 0 then now - 1 else now + t)) :: cache_delete c0 k
    /\ (c0 = c \/ ((MAX_ENTRIES <= List.length c)%nat /\ c0 = cache_cull c)).
Proof.
  unfold cache_set. cbv zeta.
  destruct (MAX_ENTRIES <=? List.length c)%nat eqn:Hm.
  - eexists. split; [reflexivity|]. right. split; [apply Nat.leb_le, Hm | reflexivity].
  - eexists. split; [reflexivity | left; reflexivity].
Qed.

Lemma lookup_set_same (c : list (string * cache_entry)) (k : string) (v : profile) (t now : Z) :
  cache_lookup (cache_set c k v t now) k = Some (mkEntry v (if t =? 0 then now - 1 else now + t)).
Proof.
  destruct (set_shape c k v t now) as [c0 [-> _]]. cbn [cache_lookup].
  rewrite String.eqb_refl. reflexivity.
Qed.


(** After a [set], [get] of the same key finds the entry while it lives
    (and leaves the cache as it is, the key being in front already), and
    deletes it once it has expired. *)
Lemma get_set_live (c : list (string * cache_entry)) (k : string) (v : profile) (t now now' : Z) :
  now' < (if t =? 0 then now - 1 else now + t) ->
  cache_get (cache_set c k v t now) k now' = (Some v, cache_set c k v t now).
Proof.
  intros Ht. unfold cache_get. rewrite lookup_set_same. cbn [ce_value ce_expiry].
  replace (now' <? _) with true by (symmetry; apply Z.ltb_lt; exact Ht).
  destruct (set_shape c k v t now) as [c0 [Hs _]]. rewrite Hs. f_equal. f_equal.
  unfold cache_delete at 1. cbn [filter fst]. rewrite String.eqb_refl. cbn [negb].
  apply delete_absent, lookup_delete_same.
Qed.

Lemma get_set_expired (c : list (string * cache_entry)) (k : string) (v : profile) (t now now' : Z) :
  (if t =? 0 then now - 1 else now + t) <= now' ->
  cache_get (cache_set c k v t now) k now' = (None, cache_delete (cache_set c k v t now) k).
Proof.
  intros Ht. unfold cache_get. rewrite lookup_set_same. cbn [ce_value ce_expiry].
  replace (now' <? _) with false by (symmetry; apply Z.ltb_ge; exact Ht). reflexivity.
Qed.




Lemma get_miss_delete (c c1 : list (string * cache_entry)) (k : string) (now : Z) :
  cache_get c k now = (None, c1) -> c1 = cache_delete c k.
Proof.
  unfold cache_get. intros H. destruct (cache_lookup c k) as [e|] eqn:Hl.
  - destruct (now <? ce_expiry e); [discriminate H | congruence].
  - rewrite (delete_absent _ _ Hl). congruence.
Qed.

Lemma get_miss dp iso disp full fd ad svc w now c name p c' :
  get_company_esg_profile dp iso disp full fd ad svc w now c name = (Ok (p, false), c') ->
  build_profile dp iso disp full fd ad w (max_items svc) (normalize_company_name name) = Ok p
  /\ c' = cache_set (cache_delete c (make_cache_key (normalize_company_name name)))
             (make_cache_key (normalize_company_name name)) p (cache_timeout svc) now.
Proof.
  unfold get_company_esg_profile.
  destruct (cache_get c _ now) as [[v|] c1] eqn:Hg; [intros H; injection H; discriminate|].
  rewrite <- (get_miss_delete _ _ _ _ Hg).
  destruct (build_profile _ _ _ _ _ _ _ _ _) as [q|e]; intros H; injection H; [|discriminate].
  intros <- <-. split; reflexivity.
Qed.

End CacheProofs.

(** ** Search history *)

Module RecordProofs.
Local Open Scope list_scope.

Lemma recorded_rows (db : list history_row) :
  recorded db ->
  Forall (fun h => h_user h <> 0
                   /\ normalize_company_name (company_name (h_row h)) = company_name (h_row h)) db.
Proof.
  induction 1 as [|u n t db Hdb IH]; [constructor|].
  unfold record_search. destruct ((u =? 0) || String.eqb n "") eqn:E; [exact IH|].
  apply Forall_app. split; [exact IH|]. constructor; [|constructor].
  apply orb_false_iff in E as [E _]. simpl. split; [lia | apply CacheProofs.normalize_idem].
Qed.

Lemma user_rows_app u db db' : user_rows u (db ++ db') = user_rows u db ++ user_rows u db'.
Proof. unfold user_rows. rewrite filter_app, map_app. reflexivity. Qed.

End RecordProofs.

(** X7: once a request for a name has built a profile and cached it with a
    positive timeout, every later request, before the timeout runs out, for
    a name that is equal up to case and whitespace runs, is served that same
    profile from the cache ([from_cache] is true), whatever the outside
    world does, and leaves the cache as it is. *)
Theorem get_company_esg_profile_cache_hit
    (dp : string -> option datetime) (iso disp full : datetime -> string)
    (fd ad : nat) (svc : service) (w w' : world) (now now' : Z)
    (c c' : list (string * cache_entry)) (name name' : string) (p : profile) :
  get_company_esg_profile dp iso disp full fd ad svc w now c name = (Ok (p, false), c') ->
  now <= now' < now + cache_timeout svc ->
  normalize_company_name (py_lower name) = normalize_company_name (py_lower name') ->
  get_company_esg_profile dp iso disp full fd ad svc w' now' c' name' = (Ok (p, true), c').
Proof.
  intros H Ht Hn.
  destruct (CacheProofs.get_miss _ _ _ _ _ _ _ _ _ _ _ _ _ H) as [_ ->].
  unfold get_company_esg_profile.
  rewrite <- (CacheProofs.key_of_normalized _ _ Hn), CacheProofs.get_set_live; [reflexivity|].
  replace (cache_timeout svc =? 0) with false by lia. lia.
Qed.

(** A witness: OpenAI unconfigured; " Acme " is looked up again as "ACME". *)
Lemma get_company_esg_profile_cache_hit_witness :
  let w := mkWorld false ReplyNoText ReplyNoText ReplyNoText 0 0 in
  let p := mkProfile "Acme" "T" "F"
             "Overview unavailable for Acme. Configure OPENAI_API_KEY to enable this summary."
             (PInt 0) [] 0 730 in
  let c' := cache_set [] (make_cache_key "Acme") p 3600 100 in
  get_company_esg_profile no_parse (fun _ => "T") (fun _ => "D") (fun _ => "F") 100 100
    default_service w 100 [] " Acme " = (Ok (p, false), c')
  /\ get_company_esg_profile no_parse (fun _ => "T") (fun _ => "D") (fun _ => "F") 100 100
       default_service w 200 c' "ACME" = (Ok (p, true), c').
Proof.
  intros w p c'.
  assert (H : get_company_esg_profile no_parse (fun _ => "T") (fun _ => "D") (fun _ => "F")
                100 100 default_service w 100 [] " Acme " = (Ok (p, false), c'))
    by (vm_compute; reflexivity).
  split; [exact H|].
  apply (get_company_esg_profile_cache_hit no_parse (fun _ => "T") (fun _ => "D") (fun _ => "F")
           100 100 default_service w w 100 200 [] c' " Acme " "ACME" p H);
    [unfold default_service; simpl; lia | vm_compute; reflexivity].
Defined.

(** X8: a cached profile is never served once it has expired: after a
    request that built and cached a profile at time [now], a request for a
    name equal up to case and whitespace runs, at a time [now'] at or past
    the expiry ([now - 1] for a timeout of 0, else [now + timeout]),
    deletes the expired entry ([cache.get] does), builds the profile afresh
    and caches the new one; when the build raises, the cache is left
    without the entry. *)
Theorem get_company_esg_profile_expired
    (dp : string -> option datetime) (iso disp full : datetime -> string)
    (fd ad : nat) (svc : service) (w w' : world) (now now' : Z)
    (c c' : list (string * cache_entry)) (name name' : string) (p : profile) :
  get_company_esg_profile dp iso disp full fd ad svc w now c name = (Ok (p, false), c') ->
  (if cache_timeout svc =? 0 then now - 1 else now + cache_timeout svc) <= now' ->
  normalize_company_name (py_lower name) = normalize_company_name (py_lower name') ->
  get_company_esg_profile dp iso disp full fd ad svc w' now' c' name'
  = match build_profile dp iso disp full fd ad w' (max_items svc) (normalize_company_name name') with
    | Ok q => (Ok (q, false),
               cache_set (cache_delete c' (make_cache_key (normalize_company_name name')))
                 (make_cache_key (normalize_company_name name')) q (cache_timeout svc) now')
    | Err e => (Err e, cache_delete c' (make_cache_key (normalize_company_name name')))
    end.
Proof.
  intros H Ht Hn.
  destruct (CacheProofs.get_miss _ _ _ _ _ _ _ _ _ _ _ _ _ H) as [_ ->].
  unfold get_company_esg_profile.
  rewrite <- (CacheProofs.key_of_normalized _ _ Hn), CacheProofs.get_set_expired by exact Ht.
  reflexivity.
Qed.

(** A witness: the default hour-long timeout, asked again an hour later. *)
Lemma get_company_esg_profile_expired_witness :
  let w := mkWorld false ReplyNoText ReplyNoText ReplyNoText 0 0 in
  let p := mkProfile "Acme" "T" "F"
             "Overview unavailable for Acme. Configure OPENAI_API_KEY to enable this summary."
             (PInt 0) [] 0 730 in
  let c' := cache_set [] (make_cache_key "Acme") p 3600 100 in
  get_company_esg_profile no_parse (fun _ => "T") (fun _ => "D") (fun _ => "F") 100 100
    default_service w 100 [] "Acme" = (Ok (p, false), c')
  /\ get_company_esg_profile no_parse (fun _ => "T") (fun _ => "D") (fun _ => "F") 100 100
       default_service w 3700 c' "acme"
     = match build_profile no_parse (fun _ => "T") (fun _ => "D") (fun _ => "F") 100 100 w 50
               (normalize_company_name "acme") with
       | Ok q => (Ok (q, false),
                  cache_set (cache_delete c' (make_cache_key (normalize_company_name "acme")))
                    (make_cache_key (normalize_company_name "acme")) q 3600 3700)
       | Err e => (Err e, cache_delete c' (make_cache_key (normalize_company_name "acme")))
       end.
Proof.
  intros w p c'.
  assert (H : get_company_esg_profile no_parse (fun _ => "T") (fun _ => "D") (fun _ => "F")
                100 100 default_service w 100 [] "Acme" = (Ok (p, false), c'))
    by (vm_compute; reflexivity).
  split; [exact H|].
  apply (get_company_esg_profile_expired no_parse (fun _ => "T") (fun _ => "D") (fun _ => "F")
           100 100 default_service w w 100 3700 [] c' "Acme" "acme" p H);
    [unfold default_service; simpl; lia | vm_compute; reflexivity].
Defined.



(** X10: in a history table built by [record_search] alone, every row has
    a non-zero user id and a company name that normalisation leaves
    unchanged. *)
Theorem record_search_rows_normalized (db : list history_row) :
  recorded db ->
  Forall (fun h => h_user h <> 0
                   /\ normalize_company_name (company_name (h_row h)) = company_name (h_row h)) db.
Proof. apply RecordProofs.recorded_rows. Qed.

(** A witness: a dropped anonymous search, then a padded name. *)
Lemma record_search_rows_normalized_witness :
  let db := record_search 5 " Acme   Corp " 2 (record_search 0 "Beta" 1 []) in
  recorded db
  /\ Forall (fun h => h_user h <> 0
                      /\ normalize_company_name (company_name (h_row h)) = company_name (h_row h)) db.
Proof.
  intros db.
  assert (H : recorded db) by (apply recorded_step, recorded_step, recorded_empty).
  split; [exact H | apply (record_search_rows_normalized db H)].
Defined.

(** X11: the emptiness test of [record_search] looks at the raw name, so a
    non-empty name made only of whitespace is recorded, under the empty
    company name. *)
Theorem record_search_blank_name (user_id : Z) (company_name : string) (now : Z)
    (db : list history_row) :
  user_id <> 0 -> company_name <> EmptyString -> py_strip company_name = EmptyString ->
  record_search user_id company_name now db = (db ++ [mkHist user_id (mkRow EmptyString now)])%list.
Proof.
  intros Hu Hn Hs. unfold record_search, normalize_company_name. rewrite Hs.
  replace (user_id =? 0) with false by lia.
  destruct (String.eqb company_name "") eqn:E; [apply String.eqb_eq in E; contradiction|].
  reflexivity.
Qed.

(** A witness: a name of three spaces. *)
Lemma record_search_blank_name_witness :
  record_search 7 "   " 3 [] = [mkHist 7 (mkRow EmptyString 3)].
Proof.
  apply (record_search_blank_name 7 "   " 3 []); [lia | discriminate | reflexivity].
Defined.

(** X12: right after a user's search is recorded at a time later than all
    of that user's earlier rows, the user's recent-search list (any limit
    of at least 1) starts with that search, under its normalised name. *)
Theorem get_recent_searches_latest_first (u : Z) (n : string) (t : Z)
    (db : list history_row) (limit : Z) (qs : list search_row) :
  u <> 0 -> n <> EmptyString -> 1 <= limit ->
  Forall (fun r => searched_at r < t) (user_rows u db) ->
  user_query (record_search u n t db) u qs ->
  exists rest, get_recent_searches u limit qs = mkRow (normalize_company_name n) t :: rest.
Proof.
  intros Hu Hn Hl Hlt [HP HS].
  unfold record_search in HP. replace (u =? 0) with false in HP by lia.
  destruct (String.eqb n "") eqn:E; [apply String.eqb_eq in E; contradiction|]. simpl in HP.
  rewrite RecordProofs.user_rows_app in HP.
  unfold user_rows at 2 in HP. simpl in HP. rewrite Z.eqb_refl in HP. simpl in HP.
  set (row := mkRow (normalize_company_name n) t) in *.
  destruct qs as [|y rest].
  { apply Permutation_length in HP. rewrite length_app in HP. simpl in HP. lia. }
  assert (Hrow : In row (y :: rest)).
  { apply (Permutation_in _ (Permutation_sym HP)). apply in_or_app. right. left. reflexivity. }
  assert (Hy : y = row).
  { destruct Hrow as [->|Hin]; [reflexivity|].
    apply StronglySorted_inv in HS as [_ HF]. rewrite Forall_forall in HF.
    specialize (HF _ Hin). simpl in HF.
    assert (Hy : In y (user_rows u db ++ [row])) by (apply (Permutation_in _ HP); left; reflexivity).
    apply in_app_or in Hy as [Hy|[Hy|[]]].
    - rewrite Forall_forall in Hlt. specialize (Hlt _ Hy). lia.
    - symmetry. exact Hy. }
  subst y. unfold get_recent_searches. replace (u =? 0) with false by lia. simpl.
  eexists. reflexivity.
Qed.

(** A witness: an older row for "Old", then " Acme " searched at time 5. *)
Lemma get_recent_searches_latest_first_witness :
  let db := [mkHist 1 (mkRow "Old" 3)] in
  let qs := [mkRow "Acme" 5; mkRow "Old" 3] in
  user_query (record_search 1 " Acme " 5 db) 1 qs
  /\ exists rest, get_recent_searches 1 10 qs = mkRow (normalize_company_name " Acme ") 5 :: rest.
Proof.
  intros db qs.
  assert (Hq : user_query (record_search 1 " Acme " 5 db) 1 qs).
  { split.
    - vm_compute. apply perm_swap.
    - apply SSorted_cons; [apply SSorted_cons; [apply SSorted_nil | constructor]|].
      constructor; [simpl; lia | constructor]. }
  split; [exact Hq|].
  apply (get_recent_searches_latest_first 1 " Acme " 5 db 10 qs);
    [lia | discriminate | lia | constructor; [simpl; lia | constructor] | exact Hq].
Defined.

(** X13: the names stored by [record_search] are normalised, so the
    user's recent-search list over such a table never holds two names that
    are equal up to case and whitespace runs, for any positive limit. *)
Theorem get_recent_searches_distinct_normalized (db : list history_row) (u limit : Z)
    (qs : list search_row) :
  recorded db -> 0 < limit -> Permutation qs (user_rows u db) ->
  NoDup (map (fun r => normalize_company_name (py_lower (company_name r)))
             (get_recent_searches u limit qs)).
Proof.
  intros Hdb Hl HP. unfold get_recent_searches.
  destruct (u =? 0); [constructor|].
  destruct (HistoryProofs.recent_loop_spec [] qs 0 limit ltac:(lia)) as [Hsub [Hnd _]].
  assert (Hfix : Forall (fun r => normalize_company_name (company_name r) = company_name r) qs).
  { apply Forall_forall. intros r Hr. apply (Permutation_in _ HP) in Hr.
    unfold user_rows in Hr. apply in_map_iff in Hr as [h [<- Hh]].
    apply filter_In in Hh as [Hh _].
    pose proof (RecordProofs.recorded_rows db Hdb) as HF. rewrite Forall_forall in HF.
    apply (HF h Hh). }
  apply (HistoryProofs.subseq_forall _ _ _ Hsub) in Hfix.
  replace (map (fun r => normalize_company_name (py_lower (company_name r)))
               (recent_loop [] qs 0 limit))
    with (map row_key (recent_loop [] qs 0 limit)); [exact Hnd|].
  apply map_ext_in. intros r Hr. rewrite Forall_forall in Hfix. specialize (Hfix r Hr).
  unfold row_key. rewrite <- NormalizeProofs.lower_normalize, Hfix. reflexivity.
Qed.

(** A witness: "Acme Corp", then " ACME   corp". *)
Lemma get_recent_searches_distinct_normalized_witness :
  let db := record_search 1 " ACME   corp" 2 (record_search 1 "Acme Corp" 1 []) in
  recorded db
  /\ NoDup (map (fun r => normalize_company_name (py_lower (company_name r)))
                (get_recent_searches 1 10 (rev (user_rows 1 db)))).
Proof.
  intros db.
  assert (H : recorded db) by (apply recorded_step, recorded_step, recorded_empty).
  split; [exact H|].
  apply (get_recent_searches_distinct_normalized db 1 10 _ H); [lia | apply Permutation_sym, Permutation_rev].
Defined.

Module ProfileProofs.

Lemma build_profile_company dp iso disp full fd ad w m name p :
  build_profile dp iso disp full fd ad w m name = Ok p -> p_company p = name.
Proof.
  unfold build_profile.
  destruct (fetch_company_overview _ _ _); simpl; [|discriminate].
  destruct (fetch_articles _ _ _ _ _ _ _); simpl; [|discriminate].
  destruct (analyse_articles _ _ _ _ _ _ _ _); simpl; [|discriminate].
  intros H. injection H as <-. reflexivity.
Qed.

End ProfileProofs.

(** X14: [_handle_company_search] records the search only when the profile
    is obtained: on an error the history does not change and the cache only
    loses the request's own key, which [cache.get] deleted as expired (it
    had no live entry); on success the history gets [record_search] of the
    raw name, and a freshly built profile carries the normalised name as
    its company. *)
Theorem handle_company_search_outcome
    (dp : string -> option datetime) (iso disp full : datetime -> string) (fd ad : nat)
    (w : world) (now : Z) (c : list (string * cache_entry)) (db : list history_row)
    (user_id : Z) (company_name : string) :
  match handle_company_search dp iso disp full fd ad w now c db user_id company_name with
  | (Err _, c', db') =>
      c' = cache_delete c (make_cache_key (normalize_company_name company_name)) /\ db' = db
  | (Ok (p, from_cache), _, db') =>
      db' = record_search user_id company_name now db
      /\ (if from_cache then True else p_company p = normalize_company_name company_name)
  end.
Proof.
  unfold handle_company_search, get_company_esg_profile.
  destruct (cache_get c _ now) as [[v|] c1] eqn:Hg; [split; [reflexivity | exact I]|].
  destruct (build_profile _ _ _ _ _ _ _ _ _) eqn:Hb;
    [|split; [exact (CacheProofs.get_miss_delete _ _ _ _ Hg) | reflexivity]].
  split; [reflexivity|]. exact (ProfileProofs.build_profile_company _ _ _ _ _ _ _ _ _ _ Hb).
Qed.

(** X15: [_fetch_company_overview] never raises: it returns the
    configuration notice when OpenAI is unavailable, the stripped response
    text when the request succeeds, and the short unavailability notice
    when the request fails. *)
Theorem fetch_company_overview_never_fails (available : bool) (r : reply) (company_name : string) :
  exists s, fetch_company_overview available r company_name = Ok s
  /\ ((available = false
       /\ s = ("Overview unavailable for " ++ company_name
               ++ ". Configure OPENAI_API_KEY to enable this summary.")%string)
      \/ (available = true /\ exists t, r = ReplyText t /\ s = py_strip t)
      \/ (available = true /\ (r = ReplyTransportError \/ r = ReplyNoText)
          /\ s = ("Overview unavailable for " ++ company_name ++ ".")%string)).
Proof.
  unfold fetch_company_overview, execute_openai_prompt.
  destruct available; simpl; [|eexists; split; [reflexivity | left; split; reflexivity]].
  destruct r as [| |t]; eexists; (split; [reflexivity|]).
  - right. right. split; [reflexivity|]. split; [left; reflexivity | reflexivity].
  - right. right. split; [reflexivity|]. split; [right; reflexivity | reflexivity].
  - right. left. split; [reflexivity|]. exists t. split; reflexivity.
Qed.

(** X16: with OpenAI unconfigured, [_build_profile] ignores every oracle
    reply: the profile has the configuration notice as overview, no items,
    a total of 0, the integer overall score 0 and the 730-day window. *)
Theorem build_profile_unconfigured
    (dp : string -> option datetime) (iso disp full : datetime -> string)
    (fd ad : nat) (w : world) (max_items : Z) (company_name : string) :
  w_available w = false ->
  build_profile dp iso disp full fd ad w max_items company_name
  = Ok (mkProfile company_name (isoformat iso (Naive (w_now w))) (full (Naive (w_now w)))
          ("Overview unavailable for " ++ company_name
           ++ ". Configure OPENAI_API_KEY to enable this summary.")
          (PInt 0) [] 0 LOOKBACK_DAYS).
Proof.
  intros Ha. unfold build_profile, fetch_company_overview, fetch_articles. rewrite Ha.
  reflexivity.
Qed.

(** A witness: a world whose oracle replies would all be texts. *)
Lemma build_profile_unconfigured_witness :
  build_profile no_parse (fun _ => "T") (fun _ => "D") (fun _ => "F") 100 100
    (mkWorld false (ReplyText "x") (ReplyText "y") (ReplyText "z") 1 2) 50 "Acme"
  = Ok (mkProfile "Acme" (isoformat (fun _ => "T") (Naive 2)) "F"
          ("Overview unavailable for Acme. Configure OPENAI_API_KEY to enable this summary.")
          (PInt 0) [] 0 LOOKBACK_DAYS).
Proof.
  apply (build_profile_unconfigured no_parse (fun _ => "T") (fun _ => "D") (fun _ => "F")
           100 100 (mkWorld false (ReplyText "x") (ReplyText "y") (ReplyText "z") 1 2) 50 "Acme").
  reflexivity.
Defined.

Module ServiceProofs.

Lemma mapM_length {A B} (f : A -> result B) (l : list A) ys :
  mapM f l = Ok ys -> List.length ys = List.length l.
Proof.
  revert ys. induction l as [|x l IH]; intros ys; simpl.
  - intros H. injection H as <-. reflexivity.
  - destruct (f x); simpl; [|discriminate].
    destruct (mapM f l) eqn:Hl; simpl; [|discriminate].
    intros H. injection H as <-. simpl. f_equal. apply IH. reflexivity.
Qed.

End ServiceProofs.

(** X17: [_normalize_item_structure] raises [AttributeError] when the item
    is not a dict, and when its [scores] value is truthy but not a dict. *)
Theorem normalize_item_structure_attribute_error
    (dp : string -> option datetime) (disp : datetime -> string) (it : pyval) :
  (forall kvs, it <> PDict kvs)
  \/ (exists kvs sv, it = PDict kvs /\ Py.dict_get kvs "scores" = Some sv
                     /\ Py.truthy sv = true /\ forall kvs', sv <> PDict kvs') ->
  normalize_item_structure dp disp it = Err AttributeError.
Proof.
  intros [Hn | [kvs [sv [-> [Hs [Ht Hd]]]]]].
  - destruct it as [| | | | | | kvs]; try reflexivity. exfalso. apply (Hn kvs). reflexivity.
  - unfold normalize_item_structure. simpl. rewrite Hs. simpl.
    unfold Py.py_or. rewrite Ht.
    destruct sv as [| | | | | | kvs']; try reflexivity. exfalso. apply (Hd kvs'). reflexivity.
Qed.

(** A witness: the scores given as a string. *)
Lemma normalize_item_structure_attribute_error_witness :
  normalize_item_structure no_parse (fun _ => "D") (PDict [("scores", PStr "high")])
  = Err AttributeError.
Proof.
  apply normalize_item_structure_attribute_error. right.
  exists [("scores", PStr "high")], (PStr "high").
  split; [reflexivity|]. split; [reflexivity|]. split; [reflexivity|].
  intros kvs'. discriminate.
Defined.

(** X18: a dict item whose [scores] is missing or falsy is normalised with
    every score, the overall one included, equal to 0.0. *)
Theorem normalize_item_structure_falsy_scores
    (dp : string -> option datetime) (disp : datetime -> string) (kvs : list (string * pyval)) :
  Py.truthy (dict_lookup kvs "scores") = false ->
  exists itm, normalize_item_structure dp disp (PDict kvs) = Ok itm
  /\ it_scores itm = mkScores (PFloat Flt.zero) (PFloat Flt.zero) (PFloat Flt.zero) Flt.zero.
Proof.
  intros Hs. unfold normalize_item_structure. simpl.
  unfold dict_lookup in Hs. unfold Py.py_or. rewrite Hs. simpl.
  eexists. split; reflexivity.
Qed.

(** A witness: [scores] given as an empty list. *)
Lemma normalize_item_structure_falsy_scores_witness :
  exists itm, normalize_item_structure no_parse (fun _ => "D")
                (PDict [("title", PStr "A"); ("scores", PList [])]) = Ok itm
  /\ it_scores itm = mkScores (PFloat Flt.zero) (PFloat Flt.zero) (PFloat Flt.zero) Flt.zero.
Proof.
  apply (normalize_item_structure_falsy_scores no_parse (fun _ => "D")
           [("title", PStr "A"); ("scores", PList [])]).
  reflexivity.
Defined.

(** X19: [_format_display_date] shows a falsy date as "N/A", shows a
    truthy value that is not a parsable string (a non-string, or a string
    the parser rejects) unchanged, and shows a parsable string through the
    display format of its aware datetime. *)
Theorem format_display_date_cases
    (dp : string -> option datetime) (disp : datetime -> string) (v : pyval) :
  (Py.truthy v = false -> format_display_date dp disp v = PStr "N/A")
  /\ (Py.truthy v = true -> (forall s, v = PStr s -> dp s = None) ->
      format_display_date dp disp v = v)
  /\ (forall s d, v = PStr s -> Py.truthy v = true -> dp s = Some d ->
      format_display_date dp disp v = PStr (disp (ensure_aware d))).
Proof.
  unfold format_display_date, safe_parse_datetime, Py.py_or.
  split; [intros H; rewrite H; reflexivity|].
  split.
  - intros Ht Hp. rewrite Ht. simpl.
    destruct v; try reflexivity. rewrite (Hp s eq_refl). simpl.
    destruct s; [discriminate Ht | reflexivity].
  - intros s d -> Ht Hd. rewrite Ht. simpl. rewrite Hd. reflexivity.
Qed.

(** A witness: an empty string, an unparsable string and an integer. *)
Lemma format_display_date_cases_witness :
  format_display_date no_parse (fun _ => "D") (PStr "") = PStr "N/A"
  /\ format_display_date no_parse (fun _ => "D") (PStr "soon") = PStr "soon"
  /\ format_display_date no_parse (fun _ => "D") (PInt 5) = PInt 5.
Proof.
  split; [apply (proj1 (format_display_date_cases no_parse (fun _ => "D") (PStr ""))); reflexivity|].
  split.
  - apply (proj1 (proj2 (format_display_date_cases no_parse (fun _ => "D") (PStr "soon"))));
      [reflexivity | intros s _; reflexivity].
  - apply (proj1 (proj2 (format_display_date_cases no_parse (fun _ => "D") (PInt 5))));
      [reflexivity | intros s H; discriminate H].
Defined.

(** X20: an analysis from the OpenAI path comes from a response that is
    JSON; its items are the normalised entries of that response's [items]
    value, reordered, one per entry; a truthy [overall_score] of the
    response is returned as it is (neither coerced to a number nor
    clamped), and the overall score returned is always truthy or the
    integer 0. *)
Theorem analyse_with_openai_result
    (dp : string -> option datetime) (disp : datetime -> string) (ad : nat)
    (available : bool) (r : reply) (company_name : string) (articles : list article)
    (an : analysis) :
  analyse_with_openai dp disp ad available r company_name articles = Ok an ->
  exists t parsed iv raw items,
    r = ReplyText t /\ Json.loads ad t = Ok parsed
    /\ Py.get parsed "items" (PList []) = Ok iv /\ Py.iter iv = Ok raw
    /\ mapM (normalize_item_structure dp disp) raw = Ok items
    /\ List.length items = List.length raw
    /\ Permutation (an_items an) items
    /\ (forall v, Py.get parsed "overall_score" PNone = Ok v -> Py.truthy v = true ->
                  an_overall_score an = v)
    /\ (Py.truthy (an_overall_score an) = true \/ an_overall_score an = PInt 0).
Proof.
  unfold analyse_with_openai.
  destruct (execute_openai_prompt available r) as [t|e] eqn:He; simpl; [|discriminate].
  assert (Hr : r = ReplyText t).
  { unfold execute_openai_prompt in He. destruct available; [|discriminate].
    destruct r; try discriminate. injection He as ->. reflexivity. }
  destruct (Json.loads ad t) as [parsed|e] eqn:Hj; [|destruct e; discriminate].
  destruct (Py.get parsed "items" (PList [])) as [iv|e] eqn:Hi; simpl; [|discriminate].
  destruct (Py.iter iv) as [raw|e] eqn:Hit; simpl; [|discriminate].
  destruct (mapM (normalize_item_structure dp disp) raw) as [items|e] eqn:Hm; simpl; [|discriminate].
  destruct (Py.get parsed "overall_score" PNone) as [ov|e] eqn:Ho; simpl; [|discriminate].
  intros H. injection H as <-.
  exists t, parsed, iv, raw, items.
  split; [exact Hr|]. split; [exact Hj|]. split; [exact Hi|]. split; [exact Hit|].
  split; [exact Hm|].
  split; [apply (ServiceProofs.mapM_length _ _ _ Hm)|].
  split; [apply HeuristicListProofs.sort_desc_perm|]. simpl.
  split.
  - intros v Hv Ht. rewrite Ho in Hv. injection Hv as <-. unfold Py.py_or.
    destruct ov; simpl in Ht |- *; try discriminate; rewrite Ht; reflexivity.
  - unfold Py.py_or.
    destruct (Py.truthy (match ov with PNone => _ | _ => ov end)) eqn:E;
      [left; exact E | right; reflexivity].
Qed.

(** A witness: a response with no items and the overall score "high". *)
Lemma analyse_with_openai_result_witness :
  let r := ReplyText (dquote "{'items': [], 'overall_score': 'high'}") in
  analyse_with_openai no_parse (fun _ => "D") 100 true r "Acme" []
  = Ok (mkAnalysis [] (PStr "high"))
  /\ exists t parsed iv raw items,
    r = ReplyText t /\ Json.loads 100 t = Ok parsed
    /\ Py.get parsed "items" (PList []) = Ok iv /\ Py.iter iv = Ok raw
    /\ mapM (normalize_item_structure no_parse (fun _ => "D")) raw = Ok items
    /\ List.length items = List.length raw
    /\ Permutation (an_items (mkAnalysis [] (PStr "high"))) items
    /\ (forall v, Py.get parsed "overall_score" PNone = Ok v -> Py.truthy v = true ->
                  an_overall_score (mkAnalysis [] (PStr "high")) = v)
    /\ (Py.truthy (an_overall_score (mkAnalysis [] (PStr "high"))) = true
        \/ an_overall_score (mkAnalysis [] (PStr "high")) = PInt 0).
Proof.
  intros r.
  assert (H : analyse_with_openai no_parse (fun _ => "D") 100 true r "Acme" []
              = Ok (mkAnalysis [] (PStr "high"))) by (vm_compute; reflexivity).
  split; [exact H|].
  exact (analyse_with_openai_result no_parse (fun _ => "D") 100 true r "Acme" [] _ H).
Defined.

Module AspectProofs.

Lemma lower_char_idem (c : ascii) : lower_char (lower_char c) = lower_char c.
Proof.
  destruct c as [b0 b1 b2 b3 b4 b5 b6 b7].
  destruct b0, b1, b2, b3, b4, b5, b6, b7; vm_compute; reflexivity.
Qed.

Lemma py_lower_idem (s : string) : py_lower (py_lower s) = py_lower s.
Proof. induction s as [|c r IH]; simpl; [reflexivity|]. rewrite lower_char_idem, IH. reflexivity. Qed.

End AspectProofs.

(** X21: [deduplicate_articles] fails only with [TypeError], and only
    when some entry's identity key is truthy but unhashable (a list or a
    dict). *)
Theorem deduplicate_articles_error (entries : list article) (e : exc) :
  deduplicate_articles entries = Err e ->
  e = TypeError
  /\ exists a, In a entries /\ Py.truthy (unique_key a) = true /\ hashable (unique_key a) = false.
Proof.
  unfold deduplicate_articles. generalize (@nil pyval) as seen.
  induction entries as [|x rest IH]; intros seen; simpl; [discriminate|].
  destruct (Py.truthy (unique_key x)) eqn:Ht; simpl.
  2: { intros H. destruct (IH _ H) as [He [a [Ha Hk]]]. split; [exact He|].
       exists a. split; [right; exact Ha | exact Hk]. }
  destruct (hashable (unique_key x)) eqn:Hh; simpl.
  2: { intros H. injection H as <-. split; [reflexivity|]. exists x. split; [left; reflexivity|]. auto. }
  destruct (existsb (set_key_eq (unique_key x)) seen).
  - intros H. destruct (IH _ H) as [He [a [Ha Hk]]]. split; [exact He|].
    exists a. split; [right; exact Ha | exact Hk].
  - destruct (dedup_loop (unique_key x :: seen) rest) eqn:Hr; simpl; [discriminate|].
    intros H. injection H as <-. destruct (IH _ Hr) as [He [a [Ha Hk]]]. split; [exact He|].
    exists a. split; [right; exact Ha | exact Hk].
Qed.

(** A witness: a keyless entry, then one whose url is a list. *)
Lemma deduplicate_articles_error_witness :
  let bad := mkArticle (PStr "T") (PStr "") (PList [PStr "u"]) PNone None "openai_web_search" in
  deduplicate_articles [sample_article "" "" "" 1; bad] = Err TypeError
  /\ (TypeError = TypeError
      /\ exists a, In a [sample_article "" "" "" 1; bad]
                   /\ Py.truthy (unique_key a) = true /\ hashable (unique_key a) = false).
Proof.
  intros bad.
  assert (H : deduplicate_articles [sample_article "" "" "" 1; bad] = Err TypeError)
    by (vm_compute; reflexivity).
  split; [exact H | exact (deduplicate_articles_error _ _ H)].
Defined.

(** X22: [detect_esg_aspects] is blind to case: lowercasing the text first
    changes nothing, for any keyword map. *)
Theorem detect_esg_aspects_case_blind (text : string) (keyword_map : list (string * list string)) :
  detect_esg_aspects (py_lower text) keyword_map = detect_esg_aspects text keyword_map.
Proof. unfold detect_esg_aspects. rewrite AspectProofs.py_lower_idem. reflexivity. Qed.
